(** * AI Inspector: the photo ingestion and enrichment pipeline

    A shallow embedding of [src/lib/exif-utils.ts], [src/lib/external-apis.ts]
    and the upload page's [handleSubmit], followed by the properties of the
    pipeline stated in the specification.

    Conventions of the embedding:
    - a JavaScript number is an IEEE 754 binary64 value, here a primitive
      [float] (one NaN; [0] and [-0] are distinct);
    - a JavaScript string is a [string] holding its UTF-8 bytes.  Every
      pattern of the program distinguishes ASCII characters only, except the
      literal zone marker, whose UTF-8 encoding cannot start in the middle of
      another character, so matching on bytes and on UTF-16 code units agree;
    - [null] is [None] where a function returns [T | null]; a property of an
      object that may be missing is an [option] field, so that a property
      holding [null] ([Some None]) differs from a missing one ([None]);
    - an exception is a [Throw] completion carrying the error's message. *)

From Stdlib Require Import ZArith NArith Ascii String List Bool Lia.
From Stdlib Require Import Floats.PrimFloat Floats.SpecFloat Floats.FloatOps.
From Stdlib Require Import Floats.FloatAxioms.
From stdpp Require Import gmap strings pretty.

Set Default Proof Using "Type".
Open Scope string_scope.

(** ** JavaScript values, completions and built-ins *)

Module JS.

Abbreviation number := float.

(** The values a decoded tag can carry; [JObject] is an array or a plain
    object, of which the program only takes the type and the truth value. *)
Inductive jsval : Type :=
| JUndefined
| JNull
| JBool (b : bool)
| JNum (n : number)
| JStr (s : string)
| JObject.

(** A thrown [Error]; only [message] is ever read by the program. *)
Record JsError : Type := mkError { message : string }.

Inductive completion (A : Type) : Type :=
| Normal (a : A)
| Throw (e : JsError).
Arguments Normal {A} a.
Arguments Throw {A} e.

Definition bind {A B} (m : completion A) (k : A -> completion B) : completion B :=
  match m with
  | Normal a => k a
  | Throw e => Throw e
  end.

(** [try { return body } catch (error) { return handler }] *)
Definition try_catch {A} (body : completion A) (handler : JsError -> A) : A :=
  match body with
  | Normal a => a
  | Throw e => handler e
  end.

(** *** Numbers *)

Definition is_NaN (x : number) : bool := PrimFloat.is_nan x.

(** ToBoolean on a number: [NaN], [+0] and [-0] are falsy. *)
Definition truthy_number (x : number) : bool :=
  negb (is_NaN x || PrimFloat.is_zero x).

Definition truthy (v : jsval) : bool :=
  match v with
  | JUndefined | JNull => false
  | JBool b => b
  | JNum n => truthy_number n
  | JStr s => negb (String.eqb s "")
  | JObject => true
  end.

(** The binary64 value nearest to [m * 10^e] (ties to even), for [0 <= m]. *)
Definition float_of_decimal (m e : Z) : number :=
  match m with
  | Zpos p =>
      if (0 <=? e)%Z
      then SF2Prim (binary_normalize prec emax (Zpos p * 10 ^ e) 0 false)
      else SF2Prim (SFdiv prec emax (S754_finite false p 0)
                                    (S754_finite false (Z.to_pos (10 ^ (- e))) 0))
  | _ => PrimFloat.zero
  end.

Definition float_of_Z (z : Z) : number :=
  SF2Prim (binary_normalize prec emax z 0 false).

(** *** Characters and strings *)

Definition code (c : ascii) : N := N_of_ascii c.

Definition between (lo hi : N) (c : ascii) : bool :=
  ((lo <=? code c) && (code c <=? hi))%N.

(** [\d] *)
Definition is_digit : ascii -> bool := between 48 57.
Definition is_upper : ascii -> bool := between 65 90.
Definition is_lower : ascii -> bool := between 97 122.
(** [[A-Z]] under the [i] flag *)
Definition is_letter (c : ascii) : bool := is_upper c || is_lower c.
(** [\w] *)
Definition is_word (c : ascii) : bool :=
  is_digit c || is_letter c || Ascii.eqb c "_".

Fixpoint all_chars (p : ascii -> bool) (s : string) : bool :=
  match s with
  | EmptyString => true
  | String c s' => p c && all_chars p s'
  end.

(** [s.includes(needle)] *)
Fixpoint includes (needle s : string) : bool :=
  String.prefix needle s ||
  match s with
  | EmptyString => false
  | String _ s' => includes needle s'
  end.

(** [s.split(d)] for a one-character separator string [d]. *)
Fixpoint split_char (d : ascii) (s : string) : list string :=
  match s with
  | EmptyString => [""]
  | String c s' =>
      if Ascii.eqb c d then "" :: split_char d s'
      else match split_char d s' with
           | t :: ts => String c t :: ts
           | [] => [String c ""]
           end
  end.

(** [s.split(/[C]+/)] for a character class [C] given as [sep]: the string
    is cut at every maximal run of separator characters; a run at either
    end of the string leaves an empty piece there.  [in_run] tells that
    the character before [s] was a separator. *)
Fixpoint split_runs (sep : ascii -> bool) (in_run : bool) (s : string) : list string :=
  match s with
  | EmptyString => [""]
  | String c s' =>
      if sep c then
        if in_run then split_runs sep true s' else "" :: split_runs sep true s'
      else match split_runs sep false s' with
           | t :: ts => String c t :: ts
           | [] => [String c ""]
           end
  end.

Definition split_regex (sep : ascii -> bool) (s : string) : list string :=
  split_runs sep false s.

(** The longest prefix of decimal digits, and what follows it. *)
Fixpoint span_digits (s : string) : string * string :=
  match s with
  | EmptyString => ("", "")
  | String c s' =>
      if is_digit c
      then let (d, r) := span_digits s' in (String c d, r)
      else ("", s)
  end.

Definition digit_value (c : ascii) : Z := Z.of_N (code c) - 48.

Fixpoint digits_from (acc : Z) (s : string) : Z :=
  match s with
  | EmptyString => acc
  | String c s' => digits_from (acc * 10 + digit_value c) s'
  end.

Definition digits_value (s : string) : Z := digits_from 0 s.

Definition bytes (l : list nat) : string :=
  string_of_list_ascii (List.map ascii_of_nat l).

(** WhiteSpace and LineTerminator code points, as UTF-8. *)
Definition white_space : list string :=
  List.map bytes
    [ [9]; [10]; [11]; [12]; [13]; [32]; [194; 160]; [225; 154; 128];
      [226; 128; 128]; [226; 128; 129]; [226; 128; 130]; [226; 128; 131];
      [226; 128; 132]; [226; 128; 133]; [226; 128; 134]; [226; 128; 135];
      [226; 128; 136]; [226; 128; 137]; [226; 128; 138]; [226; 128; 168];
      [226; 128; 169]; [226; 128; 175]; [226; 129; 159]; [227; 128; 128];
      [239; 187; 191] ].

Fixpoint drop_prefix (p s : string) : option string :=
  match p, s with
  | EmptyString, _ => Some s
  | String a p', String b s' => if Ascii.eqb a b then drop_prefix p' s' else None
  | String _ _, EmptyString => None
  end.

Fixpoint first_some {A B} (f : A -> option B) (l : list A) : option B :=
  match l with
  | [] => None
  | x :: l' => match f x with Some y => Some y | None => first_some f l' end
  end.

(** TrimString(s, start) *)
Fixpoint trim_start_fuel (fuel : nat) (s : string) : string :=
  match fuel with
  | O => s
  | S fuel' =>
      match first_some (fun w => drop_prefix w s) white_space with
      | Some s' => trim_start_fuel fuel' s'
      | None => s
      end
  end.

Definition trim_start (s : string) : string :=
  trim_start_fuel (String.length s) s.

(** ExponentPart, when one starts [s]; [0] otherwise. *)
Definition scan_exponent (s : string) : Z :=
  match s with
  | String c r =>
      if Ascii.eqb c "e" || Ascii.eqb c "E" then
        let '(sign, r') :=
          match r with
          | String "+" r' => (1%Z, r')
          | String "-" r' => ((-1)%Z, r')
          | _ => (1%Z, r)
          end in
        let (ds, _) := span_digits r' in
        if String.eqb ds "" then 0%Z else (sign * digits_value ds)%Z
      else 0%Z
  | EmptyString => 0%Z
  end.

(** The value of the longest prefix of [s] that is a
    StrUnsignedDecimalLiteral, if there is one. *)
Definition str_unsigned_decimal (s : string) : option number :=
  if String.prefix "Infinity" s then Some PrimFloat.infinity
  else
    let (ip, r1) := span_digits s in
    let (fp, r2) :=
      match r1 with
      | String "." r => span_digits r
      | _ => ("", r1)
      end in
    if String.eqb ip "" && String.eqb fp "" then None
    else Some (float_of_decimal (digits_value (ip +:+ fp))
                                (scan_exponent r2 - Z.of_nat (String.length fp))).

Definition parseFloat_string (s : string) : number :=
  let t := trim_start s in
  let '(negative, u) :=
    match t with
    | String "+" u => (false, u)
    | String "-" u => (true, u)
    | _ => (false, t)
    end in
  match str_unsigned_decimal u with
  | None => PrimFloat.nan
  | Some f => if negative then PrimFloat.opp f else f
  end.

(** [parseFloat(x)] for [x] a string or [undefined] ([None]), which
    ToString turns into ["undefined"]. *)
Definition parseFloat (x : option string) : number :=
  parseFloat_string (match x with Some s => s | None => "undefined" end).

(** [x === lit] for [x] a string or [undefined]. *)
Definition strict_eq_str (x : option string) (lit : string) : bool :=
  match x with
  | Some s => String.eqb s lit
  | None => false
  end.

End JS.

Import JS.

(** ** [src/lib/exif-utils.ts] *)

Module ExifUtils.

(** One entry of the tag set returned by [ExifReader.load]. *)
Record Tag : Type := mkTag { description : jsval; value : jsval }.

(** A [File], as far as the pipeline looks at it: its name, and what
    [ExifReader.load(await file.arrayBuffer())] does on its bytes.  The
    decoder is a library behind the program's boundary. *)
Record File : Type := mkFile {
  name : string;
  exif_tags : completion (gmap string Tag)
}.

Record GPS : Type := mkGPS {
  latitude : jsval;
  longitude : jsval;
  latitudeDecimal : option (option number);
  longitudeDecimal : option (option number)
}.

Record Dimensions : Type := mkDimensions { width : jsval; height : jsval }.

(** The [exifData] object; [None] is a property that was never assigned. *)
Record ExifData : Type := mkExifData {
  dateTimeOriginal : option jsval;
  dateTime : option jsval;
  gps : option GPS;
  make : option jsval;
  model : option jsval;
  dimensions : option Dimensions
}.

(** The receiver of [x.split(...)]: a string, or a TypeError. *)
Definition split_receiver (x : string) (v : jsval) : completion string :=
  match v with
  | JStr s => Normal s
  | JUndefined =>
      Throw (mkError "Cannot read properties of undefined (reading 'split')")
  | JNull =>
      Throw (mkError "Cannot read properties of null (reading 'split')")
  | JBool _ | JNum _ | JObject => Throw (mkError (x +:+ ".split is not a function"))
  end.

(** [[^\d\w\.]] *)
Definition dms_separator (c : ascii) : bool :=
  negb (is_digit c || is_word c || Ascii.eqb c ".").

Definition convertDMSToDecimal (dms : jsval) : option number :=
  try_catch
    (bind (split_receiver "dms" dms) (fun s =>
       let parts := split_regex dms_separator s in
       let degrees := parseFloat (parts !! 0%nat) in
       let minutes := parseFloat (parts !! 1%nat) in
       let seconds := parseFloat (parts !! 2%nat) in
       let direction := parts !! 3%nat in
       let decimal := (degrees + minutes / 60 + seconds / 3600)%float in
       let decimal :=
         if strict_eq_str direction "S" || strict_eq_str direction "W"
         then (- decimal)%float else decimal in
       Normal (Some decimal)))
    (fun _ => None).

Definition is_string (v : jsval) : bool :=
  match v with JStr _ => true | _ => false end.

Definition includes_deg (v : jsval) : bool :=
  match v with JStr s => includes "deg" s | _ => false end.

Definition extractExifData (file : File) : option ExifData :=
  try_catch
    (bind (exif_tags file) (fun tags =>
       let '(dto, dt) :=
         match tags !! "DateTimeOriginal" with
         | Some t => (Some (description t), None)
         | None =>
             match tags !! "DateTime" with
             | Some t => (None, Some (description t))
             | None => (None, None)
             end
         end in
       let gps :=
         match tags !! "GPSLatitude", tags !! "GPSLongitude" with
         | Some tlat, Some tlon =>
             let lat := description tlat in
             let lon := description tlon in
             if is_string lat && includes_deg lat
             then Some (mkGPS lat lon (Some (convertDMSToDecimal lat))
                                      (Some (convertDMSToDecimal lon)))
             else Some (mkGPS lat lon None None)
         | _, _ => None
         end in
       let make := description <$> tags !! "Make" in
       let model := description <$> tags !! "Model" in
       let dimensions :=
         match tags !! "ImageWidth", tags !! "ImageHeight" with
         | Some w, Some h => Some (mkDimensions (value w) (value h))
         | _, _ => None
         end in
       Normal (Some (mkExifData dto dt gps make model dimensions))))
    (fun _ => None).

(** *** [parseInt] and [Date] *)

Definition is_hex_digit (c : ascii) : bool :=
  is_digit c || between 65 70 c || between 97 102 c.

Definition hex_value (c : ascii) : Z :=
  if is_digit c then Z.of_N (code c) - 48
  else if between 65 70 c then Z.of_N (code c) - 55
  else Z.of_N (code c) - 87.

(** The value, in the given radix, of the longest prefix of digits of [s];
    [None] when that prefix is empty. *)
Fixpoint radix_prefix (is_dig : ascii -> bool) (val : ascii -> Z) (radix : Z)
         (acc : option Z) (s : string) : option Z :=
  match s with
  | String c s' =>
      if is_dig c
      then radix_prefix is_dig val radix
             (Some (match acc with Some a => a | None => 0 end * radix + val c)%Z) s'
      else acc
  | EmptyString => acc
  end.

(** [parseInt(x)] with no radix argument. *)
Definition parseInt (x : option string) : number :=
  let s := trim_start (match x with Some s => s | None => "undefined" end) in
  let '(negative, s) :=
    match s with
    | String "+" u => (false, u)
    | String "-" u => (true, u)
    | _ => (false, s)
    end in
  let digits :=
    match s with
    | String "0" (String "x" r) | String "0" (String "X" r) =>
        radix_prefix is_hex_digit hex_value 16 None r
    | _ => radix_prefix is_digit digit_value 10 None s
    end in
  match digits with
  | None => PrimFloat.nan
  | Some z =>
      let f := float_of_Z z in
      if negative then PrimFloat.opp f else f
  end.

(** The [Date] built-in.  A [Date] object is its time value, [NaN] for an
    invalid date; how the six local-time fields turn into a time value
    (calendar, time zone) and how a time value prints belong to the host. *)
Class DateHost : Type := {
  Date_of_fields : number -> number -> number -> number -> number -> number -> number;
  Date_iso : number -> string
}.

Definition Date : Type := number.

Definition getTime (d : Date) : number := d.

Definition toISOString {host : DateHost} (d : Date) : completion string :=
  if is_NaN d then Throw (mkError "Invalid time value")
  else Normal (Date_iso d).

(** The body shared by the two branches of [extractDateTime]: the
    ["YYYY:MM:DD HH:MM:SS"] text [v] split into its six fields. *)
Definition date_of_exif_text {host : DateHost} (x : string) (v : jsval) : completion Date :=
  bind (split_receiver x v) (fun s =>
    let pieces := split_char " " s in
    let datePart := pieces !! 0%nat in
    let timePart := pieces !! 1%nat in
    bind (split_receiver "datePart" (from_option JStr JUndefined datePart)) (fun d =>
    bind (split_receiver "timePart" (from_option JStr JUndefined timePart)) (fun t =>
      let dl := split_char ":" d in
      let tl := split_char ":" t in
      Normal (Date_of_fields
                (parseInt (dl !! 0%nat))
                (parseInt (dl !! 1%nat) - 1)%float
                (parseInt (dl !! 2%nat))
                (parseInt (tl !! 0%nat))
                (parseInt (tl !! 1%nat))
                (parseInt (tl !! 2%nat)))))).

Definition truthy_field (f : option jsval) : bool :=
  match f with Some v => truthy v | None => false end.

(** [exifData] is [any]: [None] stands for [null], on which the first
    property access throws. *)
Definition extractDateTime {host : DateHost} (exifData : option ExifData) : option Date :=
  try_catch
    (match exifData with
     | None =>
         Throw (mkError "Cannot read properties of null (reading 'dateTimeOriginal')")
     | Some e =>
         if truthy_field (dateTimeOriginal e) then
           bind (date_of_exif_text "exifData.dateTimeOriginal"
                   (default JUndefined (dateTimeOriginal e)))
                (fun d => Normal (Some d))
         else if truthy_field (dateTime e) then
           bind (date_of_exif_text "exifData.dateTime"
                   (default JUndefined (dateTime e)))
                (fun d => Normal (Some d))
         else Normal None
     end)
    (fun _ => None).

Record Coordinates : Type := mkCoordinates { lat : number; lon : number }.

(** ToBoolean of [gps.latitudeDecimal]: a missing property, [null], [NaN]
    and zero are falsy. *)
Definition truthy_decimal (d : option (option number)) : bool :=
  match d with
  | Some (Some x) => truthy_number x
  | _ => false
  end.

(** The number read from a field that passed [truthy_decimal]. *)
Definition held_number (d : option (option number)) : number :=
  match d with
  | Some (Some x) => x
  | _ => PrimFloat.zero
  end.

Definition extractGPSCoordinates (exifData : option ExifData) : option Coordinates :=
  try_catch
    (match exifData with
     | None => Throw (mkError "Cannot read properties of null (reading 'gps')")
     | Some e =>
         match gps e with
         | Some g =>
             if truthy_decimal (latitudeDecimal g) && truthy_decimal (longitudeDecimal g)
             then Normal (Some (mkCoordinates (held_number (latitudeDecimal g))
                                              (held_number (longitudeDecimal g))))
             else Normal None
         | None => Normal None
         end
     end)
    (fun _ => None).

End ExifUtils.

Import ExifUtils.

(** ** [src/lib/external-apis.ts] *)

Module ExternalApis.

(** The module's constants, read from [process.env] when it is loaded. *)
Record Config : Type := mkConfig {
  OPENWEATHER_API_KEY : option string;
  GOOGLE_MAPS_API_KEY : option string
}.

(** Loading the module: the two [const] declarations, nothing else. *)
Definition load_module (process_env : gmap string string) : completion Config :=
  Normal (mkConfig (process_env !! "OPENWEATHER_API_KEY")
                   (process_env !! "GOOGLE_MAPS_API_KEY")).

(** [!KEY]: [undefined] and the empty string are falsy. *)
Definition key_missing (k : option string) : bool :=
  match k with
  | Some s => String.eqb s ""
  | None => true
  end.

(** A provider's JSON object, passed through untouched. *)
Definition payload : Type := string.

(** The body of a Geocoding API response. *)
Record GeocodeBody : Type := mkGeocodeBody {
  status : string;
  results : list payload
}.

(** [axios.get] on the two endpoints: [Normal data] when the promise
    resolves with [response.data = data], [Throw] when it rejects (network
    error, non-2xx status, timeout). *)
Class Network : Type := {
  get_timemachine : number -> number -> number -> string -> completion payload;
  get_geocode : number -> number -> string -> completion GeocodeBody
}.

Section Calls.
Context (cfg : Config) {net : Network}.

Definition getWeatherData (lat lon timestamp : number) : completion (option payload) :=
  if key_missing (OPENWEATHER_API_KEY cfg)
  then Throw (mkError "Missing OpenWeather API key")
  else
    Normal (try_catch
      (bind (get_timemachine lat lon timestamp (default "" (OPENWEATHER_API_KEY cfg)))
            (fun data => Normal (Some data)))
      (fun _ => None)).

Definition getLocationFromCoordinates (lat lon : number) : completion (option payload) :=
  if key_missing (GOOGLE_MAPS_API_KEY cfg)
  then Throw (mkError "Missing Google Maps API key")
  else
    Normal (try_catch
      (bind (get_geocode lat lon (default "" (GOOGLE_MAPS_API_KEY cfg)))
            (fun data =>
               if String.eqb (status data) "OK" && (0 <? length (results data))%nat
               then Normal (results data !! 0%nat)
               else Normal None))
      (fun _ => None)).
End Calls.

(** The zone marker of [/([A-Z])區/i]. *)
Definition zone_marker : string := "區".

Definition is_F (c : ascii) : bool := Ascii.eqb c "F" || Ascii.eqb c "f".

(** [/(\d+)F/i] anchored at the start of [s]: group 1 when it matches.
    The greedy [\d+] takes the whole run of digits; giving digits back
    cannot help, since the character after a shorter run is a digit. *)
Definition floor_at (s : string) : option string :=
  let (ds, r) := span_digits s in
  match ds, r with
  | String _ _, String c _ => if is_F c then Some ds else None
  | _, _ => None
  end.

(** [/([A-Z])區/i] anchored at the start of [s]. *)
Definition zone_at (s : string) : option string :=
  match s with
  | String c r =>
      if is_letter c && String.prefix zone_marker r then Some (String c "") else None
  | EmptyString => None
  end.

(** [s.match(re)] without the [g] flag: the match at the leftmost position
    where [re] matches; here its group 1. *)
Fixpoint first_match (at_start : string -> option string) (s : string) : option string :=
  match at_start s with
  | Some g => Some g
  | None =>
      match s with
      | String _ s' => first_match at_start s'
      | EmptyString => None
      end
  end.

Record LocationHint : Type := mkLocationHint {
  floor : option string;
  zone : option string;
  rawDescription : string
}.

Definition extractLocationFromDescription (description : string) : LocationHint :=
  let floorMatch := first_match floor_at description in
  let zoneMatch := first_match zone_at description in
  mkLocationHint floorMatch zoneMatch description.

End ExternalApis.

Import ExternalApis.

(** ** [handleSubmit] of the upload page *)

Module Upload.

(** A row of the [photos] table, as [handleSubmit] builds it; the column
    [description] is [photo_description] here, apart from a tag's. *)
Record PhotoRecord : Type := mkPhotoRecord {
  project_id : string;
  uploaded_by : option string;
  storage_path : string;
  photo_description : string;
  location_description : string;
  exif_data : option ExifData;
  weather_data : option payload;
  geo_data : option payload;
  taken_at : option string;
  ai_processed : bool;
  ai_processing_status : string
}.

(** What the outside answers while one file is processed: the clock, the
    two HTTP endpoints, and the [error] field of the results of
    [storage.upload] and of [insert] ([None] when the call succeeded,
    otherwise the error's [message]). *)
Record Env : Type := mkEnv {
  now : Z;
  network : Network;
  upload_error : string -> File -> option string;
  insert_error : PhotoRecord -> option string
}.

(** The component's state, the router, and the two stores behind Supabase. *)
Record World : Type := mkWorld {
  error : option string;
  isLoading : bool;
  uploadProgress : number;
  uploadStatus : string;
  route : option string;
  bucket : list (string * File);
  photos : list PhotoRecord
}.

(** Effects on the world that may throw. *)
Definition M (A : Type) : Type := World -> completion A * World.

Definition ret {A} (a : A) : M A := fun w => (Normal a, w).

Definition mbind {A B} (m : M A) (k : A -> M B) : M B :=
  fun w =>
    match m w with
    | (Normal a, w') => k a w'
    | (Throw e, w') => (Throw e, w')
    end.

Definition lift {A} (c : completion A) : M A := fun w => (c, w).

Definition throw {A} (msg : string) : M A := fun w => (Throw (mkError msg), w).

Declare Scope js_scope.
Delimit Scope js_scope with js.
Notation "x <~ m ;; k" := (mbind m (fun x => k))
  (at level 100, m at next level, right associativity) : js_scope.
Notation "m ;; k" := (mbind m (fun _ => k))
  (at level 100, right associativity) : js_scope.

Definition setError (e : option string) : M unit := fun w =>
  (Normal tt, mkWorld e (isLoading w) (uploadProgress w) (uploadStatus w)
                      (route w) (bucket w) (photos w)).
Definition setIsLoading (b : bool) : M unit := fun w =>
  (Normal tt, mkWorld (error w) b (uploadProgress w) (uploadStatus w)
                      (route w) (bucket w) (photos w)).
Definition setUploadProgress (p : number) : M unit := fun w =>
  (Normal tt, mkWorld (error w) (isLoading w) p (uploadStatus w)
                      (route w) (bucket w) (photos w)).
Definition setUploadStatus (s : string) : M unit := fun w =>
  (Normal tt, mkWorld (error w) (isLoading w) (uploadProgress w) s
                      (route w) (bucket w) (photos w)).
Definition router_push (path : string) : M unit := fun w =>
  (Normal tt, mkWorld (error w) (isLoading w) (uploadProgress w) (uploadStatus w)
                      (Some path) (bucket w) (photos w)).

(** [supabase.storage.from('photos').upload(path, file, ...)]: the object
    is stored unless the call reports an error. *)
Definition storage_upload (env : Env) (path : string) (file : File) : M (option string) :=
  fun w =>
    match upload_error env path file with
    | Some msg => (Normal (Some msg), w)
    | None =>
        (Normal None, mkWorld (error w) (isLoading w) (uploadProgress w) (uploadStatus w)
                              (route w) (bucket w ++ [(path, file)]) (photos w))
    end.

(** [supabase.from('photos').insert(row)] *)
Definition photos_insert (env : Env) (row : PhotoRecord) : M (option string) :=
  fun w =>
    match insert_error env row with
    | Some msg => (Normal (Some msg), w)
    | None =>
        (Normal None, mkWorld (error w) (isLoading w) (uploadProgress w) (uploadStatus w)
                              (route w) (bucket w) (photos w ++ [row]))
    end.

(** [Math.floor] *)
Definition Math_floor (x : number) : number :=
  match Prim2SF x with
  | S754_finite negative m e =>
      if (0 <=? e)%Z then x
      else
        let q := Z.shiftr (Zpos m) (- e) in
        if negative then
          if (Z.shiftl q (- e) =? Zpos m)%Z
          then PrimFloat.opp (float_of_Z q)
          else PrimFloat.opp (float_of_Z (q + 1))
        else float_of_Z q
  | _ => x
  end.

Section Component.
(** The component's state and props when the form is submitted. *)
Context {host : DateHost} (cfg : Config).
Context (user : option string) (projectId locationDescription description : string).

Local Open Scope js_scope.

(** [exifData ? extractDateTime(exifData) : null] *)
Definition date_of (exifData : option ExifData) : option Date :=
  match exifData with Some _ => extractDateTime exifData | None => None end.

(** [exifData ? extractGPSCoordinates(exifData) : null] *)
Definition coordinates_of (exifData : option ExifData) : option Coordinates :=
  match exifData with Some _ => extractGPSCoordinates exifData | None => None end.

(** The [if (gpsCoordinates) { ... }] block: [(weatherData, geoData)]. *)
Definition enrich (env : Env) (dateTime : option Date) (gpsCoordinates : option Coordinates)
  : completion (option payload * option payload) :=
  match gpsCoordinates with
  | Some c =>
      bind (match dateTime with
            | Some d =>
                let timestamp := Math_floor (getTime d / 1000)%float in
                getWeatherData cfg (net := network env) (lat c) (lon c) timestamp
            | None => Normal None
            end) (fun weatherData =>
      bind (getLocationFromCoordinates cfg (net := network env) (lat c) (lon c))
           (fun geoData => Normal (weatherData, geoData)))
  | None => Normal (None, None)
  end.

Definition file_path (env : Env) (fileIndex : nat) (file : File) : string :=
  let fileExt := List.last (split_char "." (name file)) "" in
  let fileName := pretty (now env) +:+ "-" +:+ pretty fileIndex +:+ "." +:+ fileExt in
  projectId +:+ "/" +:+ fileName.

(** [dateTime ? dateTime.toISOString() : null] *)
Definition taken_at_of (dateTime : option Date) : completion (option string) :=
  match dateTime with
  | Some d => bind (toISOString d) (fun s => Normal (Some s))
  | None => Normal None
  end.

(** The object handed to [insert]. *)
Definition photo_row (filePath : string) (exifData : option ExifData)
           (weatherData geoData : option payload) (takenAt : option string) : PhotoRecord :=
  mkPhotoRecord projectId user filePath description locationDescription
                exifData weatherData geoData takenAt false "pending".

Definition processing_status (total i : nat) : string :=
  "Processing file " +:+ pretty (i + 1)%nat +:+ " of " +:+ pretty total +:+ "...".

Definition uploading_status (total i : nat) : string :=
  "Uploading file " +:+ pretty (i + 1)%nat +:+ " of " +:+ pretty total +:+ "...".

(** The body of the [for] loop, for [files[i]]. *)
Definition process_file (env : Env) (total i : nat) (file : File) : M unit :=
  let fileIndex := i in
  setUploadStatus (processing_status total i) ;;
  let exifData := extractExifData file in
  let dateTime := date_of exifData in
  let gpsCoordinates := coordinates_of exifData in
  let _ := extractLocationFromDescription locationDescription in
  enrichment <~ lift (enrich env dateTime gpsCoordinates) ;;
  let '(weatherData, geoData) := enrichment in
  setUploadStatus (uploading_status total i) ;;
  let filePath := file_path env fileIndex file in
  uploadError <~ storage_upload env filePath file ;;
  match uploadError with
  | Some msg => throw ("Error uploading file: " +:+ msg)
  | None =>
      takenAt <~ lift (taken_at_of dateTime) ;;
      photoError <~ photos_insert env
        (photo_row filePath exifData weatherData geoData takenAt) ;;
      match photoError with
      | Some msg => throw ("Error saving photo data: " +:+ msg)
      | None =>
          setUploadProgress
            (float_of_Z (Z.of_nat (i + 1)) / float_of_Z (Z.of_nat total) * 100)%float
      end
  end.

(** [for (let i = ...; i < files.length; i++)], from index [i] on. *)
Fixpoint process_from (envs : nat -> Env) (total i : nat) (files : list File) : M unit :=
  match files with
  | [] => ret tt
  | file :: rest =>
      process_file (envs i) total i file ;;
      process_from envs total (S i) rest
  end.

(** [envs i] is the outside while [files[i]] is processed. *)
Definition handleSubmit (envs : nat -> Env) (files : list File) (w : World) : World :=
  match files with
  | [] => snd (setError (Some "Please select at least one photo to upload") w)
  | _ :: _ =>
      if String.eqb projectId "" then snd (setError (Some "Please select a project") w)
      else
        let attempt :=
          setIsLoading true ;;
          setError None ;;
          setUploadProgress 0 ;;
          setUploadStatus "Preparing files..." ;;
          process_from envs (length files) 0 files ;;
          setUploadStatus "Upload complete!" ;;
          router_push ("/projects/" +:+ projectId) in
        match attempt w with
        | (Normal _, w') => w'
        | (Throw err, w') =>
            snd ((setError (Some (if String.eqb (message err) ""
                                  then "An error occurred during upload"
                                  else message err)) ;;
                  setIsLoading false) w')
        end
  end.
End Component.

End Upload.

Import Upload.

(** ** The texts and values the specification talks about *)

Module Spec.

Inductive Hemisphere : Type := North | South | East | West.

Definition hemisphere_text (h : Hemisphere) : string :=
  match h with
  | North => "N"
  | South => "S"
  | East => "E"
  | West => "W"
  end.

Definition negated (h : Hemisphere) : bool :=
  match h with
  | South | West => true
  | North | East => false
  end.

(** An unsigned decimal numeral: its integer digits and, after a point, its
    fraction digits; no point is written when there are none. *)
Record Numeral : Type := mkNumeral { int_digits : string; frac_digits : string }.

Definition numeral_ok (n : Numeral) : bool :=
  negb (String.eqb (int_digits n) "")
  && all_chars is_digit (int_digits n)
  && all_chars is_digit (frac_digits n).

Definition numeral_text (n : Numeral) : string :=
  if String.eqb (frac_digits n) "" then int_digits n
  else int_digits n +:+ "." +:+ frac_digits n.

(** The number a numeral denotes: the binary64 value nearest to it. *)
Definition numeral_value (n : Numeral) : number :=
  float_of_decimal (digits_value (int_digits n +:+ frac_digits n))
                   (- Z.of_nat (String.length (frac_digits n))).

Definition double_quote : string := String "034" "".

(** The form the specification writes: D, a space, deg, a space, M and a
    quote mark, a space, S and a double quote mark, a space, H. *)
Definition spec_dms_text (d m s : Numeral) (h : Hemisphere) : string :=
  numeral_text d +:+ " deg " +:+ numeral_text m +:+ "' "
    +:+ numeral_text s +:+ double_quote +:+ " " +:+ hemisphere_text h.

(** A separator between two tokens: one character or more, none of them a
    letter, a digit, an underscore or a point. *)
Definition separator_run (s : string) : bool :=
  negb (String.eqb s "") && all_chars dms_separator s.

(** A token of [split]: no character of it is a separator. *)
Definition token (sep : ascii -> bool) (t : string) : bool :=
  all_chars (fun c => negb (sep c)) t.

(** What may follow a numeral without being read as part of it. *)
Definition stops (rest : string) : bool :=
  match rest with
  | EmptyString => true
  | String c _ =>
      negb (is_digit c || Ascii.eqb c "." || Ascii.eqb c "e" || Ascii.eqb c "E")
  end.

(** The form of the example in the source: the unit [deg] is attached to D,
    and separators stand between the four tokens. *)
Definition dms_text (d m s : Numeral) (h : Hemisphere) (sep1 sep2 sep3 : string) : string :=
  numeral_text d +:+ "deg" +:+ sep1 +:+ numeral_text m +:+ sep2
    +:+ numeral_text s +:+ sep3 +:+ hemisphere_text h.

(** [D + M/60 + S/3600], negated in the southern and western hemispheres. *)
Definition dms_value (d m s : Numeral) (h : Hemisphere) : number :=
  let v := (numeral_value d + numeral_value m / 60 + numeral_value s / 3600)%float in
  if negated h then (- v)%float else v.

(** The rest of [s] after the first occurrence of [needle]. *)
Fixpoint after (needle s : string) : option string :=
  match drop_prefix needle s with
  | Some r => Some r
  | None =>
      match s with
      | String _ s' => after needle s'
      | EmptyString => None
      end
  end.

(** The pattern of the data model's invariant: [deg], later a quote mark,
    later a double quote mark, later a hemisphere letter. *)
Definition spec_dms_pattern (s : string) : bool :=
  match after "deg" s with
  | Some r1 =>
      match after "'" r1 with
      | Some r2 =>
          match after double_quote r2 with
          | Some r3 => includes "N" r3 || includes "S" r3 || includes "E" r3 || includes "W" r3
          | None => false
          end
      | None => false
      end
  | None => false
  end.

(** [x] starts with the integer [d], immediately followed by [F] or [f]. *)
Definition floor_match (x d : string) : Prop :=
  exists c post,
    x = d +:+ String c post /\ d <> "" /\ all_chars is_digit d = true /\ is_F c = true.

(** [x] starts with the one-letter text [z], of either case, immediately
    followed by the zone marker. *)
Definition zone_match (x z : string) : Prop :=
  exists c post,
    z = String c "" /\ is_letter c = true /\ x = z +:+ zone_marker +:+ post.

(** [g] is what [P] finds at the first place of [s] where it finds anything. *)
Definition first_occurrence (P : string -> string -> Prop) (s g : string) : Prop :=
  exists pre x,
    s = pre +:+ x /\ P x g /\
    forall pre1 x1 g1, s = pre1 +:+ x1 -> P x1 g1 -> String.length pre <= String.length pre1.

Definition no_occurrence (P : string -> string -> Prop) (s : string) : Prop :=
  forall pre x g, s = pre +:+ x -> ~ P x g.

(** The zone pattern as the specification words it: an uppercase letter
    only, that is [/([A-Z])區/] without the [i] flag. *)
Definition spec_zone_at (s : string) : option string :=
  match s with
  | String c r =>
      if is_upper c && String.prefix zone_marker r then Some (String c "") else None
  | EmptyString => None
  end.

(** The tags [extractExifData] looks at. *)
Definition relevant_tags : list string :=
  ["DateTimeOriginal"; "DateTime"; "GPSLatitude"; "GPSLongitude";
   "Make"; "Model"; "ImageWidth"; "ImageHeight"].

Definition no_relevant_tags (tags : gmap string Tag) : Prop :=
  Forall (fun k => tags !! k = None) relevant_tags.

(** The object [{}]. *)
Definition empty_exif : ExifData := mkExifData None None None None None None.

End Spec.

(** ** What happens to one file of a batch *)

Module Batch.

Inductive Failure : Type := UploadFailure | InsertFailure.

(** The text [handleSubmit] puts before the message of the error. *)
Definition failure_prefix (f : Failure) : string :=
  match f with
  | UploadFailure => "Error uploading file: "
  | InsertFailure => "Error saving photo data: "
  end.

Section File.
Context {host : DateHost} (cfg : Config).
Context (user : option string) (projectId locationDescription description : string).
Context (env : Env) (i : nat) (file : File).

Definition exif_of : option ExifData := extractExifData file.

Definition path_of : string := file_path projectId env i file.

(** The row [handleSubmit] builds once the lookups returned [wd] and [gd]
    and the capture time printed as [t]. *)
Definition row_of (wd gd : option payload) (t : option string) : PhotoRecord :=
  photo_row user projectId locationDescription description path_of exif_of wd gd t.

(** The lookups return, the object is stored and [row] is inserted. *)
Definition commits (row : PhotoRecord) : Prop :=
  exists wd gd t,
    enrich cfg env (date_of exif_of) (coordinates_of exif_of) = Normal (wd, gd)
    /\ upload_error env path_of file = None
    /\ taken_at_of (date_of exif_of) = Normal t
    /\ row = row_of wd gd t
    /\ insert_error env row = None.

(** The upload of the file, or the insert of its row, is reached and
    reports an error with message [msg]. *)
Definition fails (f : Failure) (msg : string) : Prop :=
  exists wd gd,
    enrich cfg env (date_of exif_of) (coordinates_of exif_of) = Normal (wd, gd)
    /\ match f with
       | UploadFailure => upload_error env path_of file = Some msg
       | InsertFailure =>
           upload_error env path_of file = None
           /\ exists t, taken_at_of (date_of exif_of) = Normal t
                        /\ insert_error env (row_of wd gd t) = Some msg
       end.

(** The objects a failure leaves in the bucket for the file itself. *)
Definition stored_by (f : Failure) : list string :=
  match f with
  | UploadFailure => []
  | InsertFailure => [path_of]
  end.

End File.

Section Files.
Context {host : DateHost} (cfg : Config).
Context (user : option string) (projectId locationDescription description : string).
Context (envs : nat -> Env).

(** [files], the files from index [i] on, all commit, leaving [rows]. *)
Fixpoint all_commit (i : nat) (files : list File) (rows : list PhotoRecord) : Prop :=
  match files, rows with
  | [], [] => True
  | file :: files', row :: rows' =>
      commits cfg user projectId locationDescription description (envs i) i file row
      /\ all_commit (S i) files' rows'
  | _, _ => False
  end.

End Files.

End Batch.

(** ** Sample inputs *)

Module Samples.

Definition text_tag (s : string) : Tag := mkTag (JStr s) (JStr s).

(** A file that decodes to a tag set with none of the relevant tags. *)
Definition file_without_tags : File := mkFile "plain.png" (Normal ∅).

(** A file whose latitude description holds [deg] and nothing else. *)
Definition file_bare_deg : File :=
  mkFile "bare.jpg"
    (Normal (<["GPSLatitude" := text_tag "deg"]>
            (<["GPSLongitude" := text_tag "x"]> ∅))).

(** A file whose longitude description is a number, as the decoder gives
    it when it has already converted the coordinate. *)
Definition file_numeric_longitude : File :=
  mkFile "mixed.jpg"
    (Normal (<["GPSLatitude" := text_tag "51deg 30' 35.5 N"]>
            (<["GPSLongitude" := mkTag (JNum 0.125) (JNum 0.125)]> ∅))).

(** A photo taken on the equator. *)
Definition exif_on_equator : ExifData :=
  mkExifData None None
    (Some (mkGPS (JStr "0deg 0' 0 N") (JStr "10deg 30' 0 E")
                 (Some (Some 0%float)) (Some (Some 10.5%float))))
    None None None.

(** A host whose dates are all the same valid instant. *)
Definition fixed_clock : DateHost :=
  {| Date_of_fields := fun _ _ _ _ _ _ => 1710498600000%float;
     Date_iso := fun _ => "2024-03-15T10:30:00.000Z" |}.

Definition offline : Network :=
  {| get_timemachine := fun _ _ _ _ => Throw (mkError "timeout of 0ms exceeded");
     get_geocode := fun _ _ _ => Throw (mkError "Network Error") |}.

Definition keys : Config := mkConfig (Some "ow-key") (Some "gm-key").

Definition no_keys : Config := mkConfig None None.

(** A photo with a capture time and a position. *)
Definition located_photo : File :=
  mkFile "site.jpg"
    (Normal (<["DateTimeOriginal" := text_tag "2024:03:15 10:30:00"]>
            (<["GPSLatitude" := text_tag "51deg 30' 35.5 N"]>
            (<["GPSLongitude" := text_tag "0deg 7' 5.5 W"]> ∅)))).

(** A photo with no metadata block: the decoder throws. *)
Definition bare_photo (name : string) : File :=
  mkFile name (Throw (mkError "No Exif data")).

(** The outside while the network is down and both stores accept. *)
Definition accepting (t : Z) : Env :=
  mkEnv t offline (fun _ _ => None) (fun _ => None).

(** The outside of the batch of three of the specification: the upload of
    the second file fails. *)
Definition second_upload_fails (i : nat) : Env :=
  mkEnv (1710498600000 + Z.of_nat i) offline
        (fun _ _ => if Nat.eqb i 1 then Some "Payload too large" else None)
        (fun _ => None).

Definition idle : World := mkWorld None false 0%float "" None [] [].

End Samples.

Import Spec.

(** ** Further texts and values *)

Module Texts.

(** A text of the source's form whose last token is any word [h], not only
    one of the four hemisphere letters. *)
Definition dms_text_with (d m s : Numeral) (h : string) (sep1 sep2 sep3 : string) : string :=
  numeral_text d +:+ "deg" +:+ sep1 +:+ numeral_text m +:+ sep2
    +:+ numeral_text s +:+ sep3 +:+ h.

(** A text of the source's form that stops after the seconds. *)
Definition dms_text_bare (d m s : Numeral) (sep1 sep2 : string) : string :=
  numeral_text d +:+ "deg" +:+ sep1 +:+ numeral_text m +:+ sep2 +:+ numeral_text s.

Definition dms_magnitude (d m s : Numeral) : number :=
  (numeral_value d + numeral_value m / 60 + numeral_value s / 3600)%float.

(** A field of an EXIF date: one decimal digit or more. *)
Definition digits_ok (ds : string) : bool :=
  negb (String.eqb ds "") && all_chars is_digit ds.

Definition field_value (ds : string) : number := float_of_Z (digits_value ds).

(** The text [YYYY:MM:DD HH:MM:SS] made of six fields. *)
Definition exif_date_text (y mo d h mi s : string) : string :=
  y +:+ ":" +:+ mo +:+ ":" +:+ d +:+ " " +:+ h +:+ ":" +:+ mi +:+ ":" +:+ s.

Definition has_char (c : ascii) (s : string) : bool :=
  negb (all_chars (fun x => negb (Ascii.eqb x c)) s).

End Texts.

Import Texts.

(** ** The date fields of an [exifData] object *)

Module Dates.

(** The field [extractDateTime] reads: [dateTimeOriginal] when it is
    truthy, else [dateTime] when that one is, else nothing. *)
Definition date_source (e : ExifData) : option jsval :=
  if truthy_field (dateTimeOriginal e) then dateTimeOriginal e
  else if truthy_field (dateTime e) then dateTime e
  else None.

(** A truthy value that is no text with a space in it. *)
Definition no_date_and_time (v : jsval) : bool :=
  truthy v && match v with
              | JStr s => negb (has_char " " s)
              | _ => true
              end.

End Dates.

Import Dates.

(** ** Positions written in the source's form *)

Module Positions.

(** A coordinate text of the source's form, with its separators. *)
Record Dms : Type := mkDms {
  dms_degrees : Numeral;
  dms_minutes : Numeral;
  dms_seconds : Numeral;
  dms_hemisphere : Hemisphere;
  dms_sep1 : string;
  dms_sep2 : string;
  dms_sep3 : string
}.

Definition dms_ok (x : Dms) : bool :=
  numeral_ok (dms_degrees x) && numeral_ok (dms_minutes x) && numeral_ok (dms_seconds x)
  && separator_run (dms_sep1 x) && separator_run (dms_sep2 x) && separator_run (dms_sep3 x).

Definition dms_string (x : Dms) : string :=
  dms_text (dms_degrees x) (dms_minutes x) (dms_seconds x) (dms_hemisphere x)
           (dms_sep1 x) (dms_sep2 x) (dms_sep3 x).

Definition dms_number (x : Dms) : number :=
  dms_value (dms_degrees x) (dms_minutes x) (dms_seconds x) (dms_hemisphere x).

(** The latitude description, when the tag exists, is no string containing
    [deg]: the decoder gave a number, or a text in another notation. *)
Definition latitude_without_deg (file : File) : Prop :=
  forall tags tlat,
    exif_tags file = Normal tags ->
    tags !! "GPSLatitude" = Some tlat ->
    includes_deg (description tlat) = false.

End Positions.

Import Positions.

(** ** More sample inputs *)

Module MoreSamples.

(** A file with a latitude tag and no longitude tag. *)
Definition lone_latitude : File :=
  mkFile "lone.jpg" (Normal (<["GPSLatitude" := Samples.text_tag "51deg 30' 35.5 N"]> ∅)).

(** A file whose position the decoder gives as numbers. *)
Definition numeric_position : File :=
  mkFile "numeric.jpg"
    (Normal (<["GPSLatitude" := mkTag (JNum 51.5) (JNum 51.5)]>
            (<["GPSLongitude" := mkTag (JNum 0.125) (JNum 0.125)]> ∅))).

Definition london_latitude : Dms :=
  mkDms (mkNumeral "51" "") (mkNumeral "30" "") (mkNumeral "35" "5") North " " "' " " ".

Definition london_longitude : Dms :=
  mkDms (mkNumeral "0" "") (mkNumeral "7" "") (mkNumeral "5" "5") West " " "' " " ".

Definition london_photo : File :=
  mkFile "london.jpg"
    (Normal (<["GPSLatitude" := Samples.text_tag (dms_string london_latitude)]>
            (<["GPSLongitude" := Samples.text_tag (dms_string london_longitude)]> ∅))).

(** A network whose geocoder answers that it found nothing. *)
Definition no_results : Network :=
  {| get_timemachine := fun _ _ _ _ => Normal "{}";
     get_geocode := fun _ _ _ => Normal (mkGeocodeBody "ZERO_RESULTS" []) |}.

End MoreSamples.

(** ** Photos with a faulty or missing capture time *)

Module Errors.

(** A host for which a date with a field that is no number is invalid, as
    it is in every browser; all other dates are one fixed instant. *)
Definition strict_clock : DateHost :=
  {| Date_of_fields := fun y mo d h mi s =>
       if is_NaN y || is_NaN mo || is_NaN d || is_NaN h || is_NaN mi || is_NaN s
       then PrimFloat.nan else 1710498600000%float;
     Date_iso := fun _ => "2024-03-15T10:30:00.000Z" |}.

(** A photo whose capture time lacks its seconds. *)
Definition photo_without_seconds : File :=
  mkFile "short.jpg"
    (Normal (<["DateTimeOriginal" := Samples.text_tag "2024:03:15 10:30"]> ∅)).

(** A photo with a position and no capture time. *)
Definition undated_photo : File :=
  mkFile "undated.jpg"
    (Normal (<["GPSLatitude" := Samples.text_tag "51deg 30' 35.5 N"]>
            (<["GPSLongitude" := Samples.text_tag "0deg 7' 5.5 W"]> ∅))).

Definition undated_position : Coordinates :=
  mkCoordinates (51 + 30 / 60 + 35.5 / 3600)%float (- (0 + 7 / 60 + 5.5 / 3600))%float.

(** A network that answers both lookups. *)
Definition online : Network :=
  {| get_timemachine := fun _ _ _ _ => Normal "{weather}";
     get_geocode := fun _ _ _ => Normal (mkGeocodeBody "OK" ["{place}"]) |}.

Definition online_accepting (t : Z) : Env :=
  mkEnv t online (fun _ _ => None) (fun _ => None).

End Errors.

Import Errors.

(** ** The key checks a file runs into *)

Module Keys.

(** The message of the first key check that fails while the lookups of a
    photo with capture time [d] and position [c] are made.  [getWeatherData]
    is called only for a photo with both, and before
    [getLocationFromCoordinates], which is called for every photo with a
    position; a photo with no position makes no call. *)
Definition missing_key (cfg : Config) (d : option Date) (c : option Coordinates)
  : option string :=
  match c with
  | Some _ =>
      if match d with
         | Some _ => key_missing (OPENWEATHER_API_KEY cfg)
         | None => false
         end
      then Some "Missing OpenWeather API key"
      else if key_missing (GOOGLE_MAPS_API_KEY cfg)
           then Some "Missing Google Maps API key"
           else None
  | None => None
  end.

Definition missing_key_of {host : DateHost} (cfg : Config) (file : File) : option string :=
  missing_key cfg (date_of (extractExifData file)) (coordinates_of (extractExifData file)).

(** Only the Google Maps key is configured. *)
Definition maps_key_only : Config := mkConfig None (Some "gm-key").

End Keys.

Import Keys.

(** ** [src/lib/external-apis.ts]: the two other lookups *)

Module MoreApis.

(** One result of a forward geocoding: [geometry.location], [None] when
    [geometry] or its [location] is missing from the result. *)
Record AddressResult : Type := mkAddressResult {
  location : option (number * number)
}.

Record AddressBody : Type := mkAddressBody {
  address_status : string;
  address_results : list AddressResult
}.

(** [axios.get] on the current-weather endpoint and on the geocoding
    endpoint queried by address. *)
Class MoreNetwork : Type := {
  get_weather_now : number -> number -> string -> completion payload;
  get_geocode_address : string -> string -> completion AddressBody
}.

Section Calls.
Context (cfg : Config) {net : MoreNetwork}.

Definition getCurrentWeather (lat lon : number) : completion (option payload) :=
  if key_missing (OPENWEATHER_API_KEY cfg)
  then Throw (mkError "Missing OpenWeather API key")
  else
    Normal (try_catch
      (bind (get_weather_now lat lon (default "" (OPENWEATHER_API_KEY cfg)))
            (fun data => Normal (Some data)))
      (fun _ => None)).

Definition getCoordinatesFromAddress (address : string) : completion (option Coordinates) :=
  if key_missing (GOOGLE_MAPS_API_KEY cfg)
  then Throw (mkError "Missing Google Maps API key")
  else
    Normal (try_catch
      (bind (get_geocode_address address (default "" (GOOGLE_MAPS_API_KEY cfg)))
            (fun data =>
               if String.eqb (address_status data) "OK"
                  && (0 <? length (address_results data))%nat
               then
                 match address_results data !! 0%nat with
                 | Some (mkAddressResult (Some (lat, lng))) =>
                     Normal (Some (mkCoordinates lat lng))
                 | _ =>
                     Throw (mkError
                       "Cannot read properties of undefined (reading 'location')")
                 end
               else Normal None))
      (fun _ => None)).
End Calls.

End MoreApis.

Import MoreApis.

(** ** The upload page: choosing the files *)

Module Selection.

(** A chosen file with its MIME type. *)
Record Picked : Type := mkPicked { picked_file : File; picked_type : string }.

(** [URL.createObjectURL]: the text of the [n]-th URL the browser hands out. *)
Class UrlHost : Type := { blob_url : nat -> string }.

(** The component's [files], [previews] and [error], and the browser's
    object URLs: how many were created and which are not revoked. *)
Record Chosen : Type := mkChosen {
  chosen_files : list Picked;
  previews : list string;
  chosen_error : option string;
  urls_created : nat;
  urls_live : list string
}.

Definition is_image (p : Picked) : bool := String.prefix "image/" (picked_type p).

Section Handlers.
Context {urls : UrlHost}.

(** [imageFiles.map(file => URL.createObjectURL(file))], from the [n]-th URL on. *)
Fixpoint create_urls (n : nat) (fs : list Picked) : list string :=
  match fs with
  | [] => []
  | _ :: fs' => blob_url n :: create_urls (S n) fs'
  end.

Definition onDrop (acceptedFiles : list Picked) (s : Chosen) : Chosen :=
  let imageFiles := List.filter is_image acceptedFiles in
  if negb (Nat.eqb (length imageFiles) (length acceptedFiles))
  then mkChosen (chosen_files s) (previews s) (Some "Only image files are allowed")
                (urls_created s) (urls_live s)
  else
    let newPreviews := create_urls (urls_created s) imageFiles in
    mkChosen imageFiles newPreviews None
             (urls_created s + length imageFiles) (urls_live s ++ newPreviews).

(** [URL.revokeObjectURL(u)], [u] being [undefined] when the index is out
    of range. *)
Definition revoke (u : option string) (live : list string) : list string :=
  match u with
  | Some url => List.filter (fun x => negb (String.eqb x url)) live
  | None => live
  end.

Definition removeFile (index : nat) (s : Chosen) : Chosen :=
  let newFiles := delete index (chosen_files s) in
  let newPreviews := previews s in
  let live := revoke (newPreviews !! index) (urls_live s) in
  let newPreviews := delete index newPreviews in
  mkChosen newFiles newPreviews (chosen_error s) (urls_created s) live.

(** What the user does on the page before submitting. *)
Inductive Action : Type :=
| Drop (acceptedFiles : list Picked)
| Remove (index : nat).

Definition act (a : Action) (s : Chosen) : Chosen :=
  match a with
  | Drop fs => onDrop fs s
  | Remove i => removeFile i s
  end.

Definition run (actions : list Action) (s : Chosen) : Chosen :=
  List.fold_left (fun s a => act a s) actions s.

End Handlers.

(** The page as it is mounted. *)
Definition nothing_chosen : Chosen := mkChosen [] [] None 0 [].

End Selection.

Import Selection.

(** ** [src/lib/openai.ts]: [analyzeImage] *)

Module OpenAI.

Inductive Part : Type :=
| TextPart (text : string)
| ImageUrlPart (url : string).

Record Message : Type := mkMessage { role : string; parts : list Part }.

Record ChatRequest : Type := mkChatRequest {
  chat_model : string;
  messages : list Message;
  max_tokens : Z
}.

(** A choice of the response: [message.content], which may be [null]. *)
Record Choice : Type := mkChoice { content : option string }.

Record ChatResponse : Type := mkChatResponse { choices : list Choice }.

(** [openai.chat.completions.create]: resolves with a response or rejects. *)
Class Client : Type := { create : ChatRequest -> completion ChatResponse }.

(** An optional parameter used as a condition: [undefined] and the empty
    string are falsy. *)
Definition given (x : option string) : bool :=
  match x with
  | Some s => negb (String.eqb s "")
  | None => false
  end.

Definition newline : string := String "010" "".

(** [fullPrompt += `\n\n<heading>\n${x}`] when [x] is truthy. *)
Definition add_section (heading : string) (x : option string) (fullPrompt : string) : string :=
  if given x
  then fullPrompt +:+ newline +:+ newline +:+ heading +:+ newline +:+ default "" x
  else fullPrompt.

Definition full_prompt (prompt : string) (specifications drawings contractItems : option string)
  : string :=
  add_section "Contract Items (BOQ):" contractItems
    (add_section "Drawings:" drawings
       (add_section "Specifications:" specifications prompt)).

(** [try { ... } catch (error) { handler }] with a handler that may throw. *)
Definition try_handle {A} (body : completion A) (handler : JsError -> completion A)
  : completion A :=
  match body with
  | Normal a => Normal a
  | Throw e => handler e
  end.

Definition analyzeImage {client : Client} (imageUrl prompt : string)
           (specifications drawings contractItems : option string)
  : completion (option string) :=
  try_handle
    (let fullPrompt := full_prompt prompt specifications drawings contractItems in
     bind (create (mkChatRequest "gpt-4-vision-preview"
                     [mkMessage "user" [TextPart fullPrompt; ImageUrlPart imageUrl]]
                     1000))
          (fun response =>
             match choices response !! 0%nat with
             | Some choice => Normal (content choice)
             | None =>
                 Throw (mkError "Cannot read properties of undefined (reading 'message')")
             end))
    (fun error => Throw error).

End OpenAI.

(** ** The dashboard: [fetchProjects] *)

Module Projects.

Record Project : Type := mkProject {
  id : string;
  project_name : string;
  project_description : option string;
  project_location : option string;
  project_status : string;
  created_at : string
}.

(** The [{ data, error }] a Supabase query resolves with. *)
Record QueryResult (A : Type) : Type := mkQueryResult {
  data : option A;
  query_error : option JsError
}.
Arguments mkQueryResult {A} data query_error.
Arguments data {A} q.
Arguments query_error {A} q.

(** The two queries: the [project_id] column of the user's rows of
    [project_members], and the rows of [projects] whose [id] is in a list,
    newest first. *)
Class Database : Type := {
  select_memberships : string -> QueryResult (list string);
  select_projects : list string -> QueryResult (list Project)
}.

(** The component's [projects], [isLoading] and [error]. *)
Record Board : Type := mkBoard {
  projects : list Project;
  board_loading : bool;
  board_error : option string
}.

Definition fetchProjects {db : Database} (user : option string) (s : Board) : Board :=
  match user with
  | None => s
  | Some user_id =>
      let attempt : completion (list Project) :=
        let members := select_memberships user_id in
        match query_error members with
        | Some memberError => Throw memberError
        | None =>
            match data members with
            | Some (p :: ps) =>
                let projectIds := p :: ps in
                let found := select_projects projectIds in
                match query_error found with
                | Some projectsError => Throw projectsError
                | None => Normal (default [] (data found))
                end
            | _ => Normal []
            end
        end in
      let s' :=
        match attempt with
        | Normal ps => mkBoard ps (board_loading s) (board_error s)
        | Throw _ =>
            mkBoard (projects s) (board_loading s)
                    (Some "Failed to load projects. Please try again later.")
        end in
      mkBoard (projects s') false (board_error s')
  end.

End Projects.

(** ** Sample inputs for the other functions *)

Module OtherSamples.

Definition jpeg (n : string) : Picked := mkPicked (Samples.bare_photo n) "image/jpeg".

Definition pdf (n : string) : Picked := mkPicked (Samples.bare_photo n) "application/pdf".

(** A browser that numbers its object URLs. *)
Definition numbered_urls : UrlHost := {| blob_url := fun n => "blob:" +:+ pretty n |}.

Definition two_chosen : Chosen :=
  mkChosen [jpeg "a.jpg"; jpeg "b.jpg"] ["blob:0"; "blob:1"] None 2 ["blob:0"; "blob:1"].

Definition geocoder : MoreNetwork :=
  {| get_weather_now := fun _ _ _ => Normal "{now}";
     get_geocode_address := fun _ _ =>
       Normal (mkAddressBody "OK" [mkAddressResult (Some (25.125%float, 121.5%float));
                                   mkAddressResult None]) |}.

Definition tower : Projects.Project :=
  Projects.mkProject "p-1" "Tower B" None None "active" "2024-03-15T10:30:00Z".

(** A database in which the user belongs to one project and the second
    query fails. *)
Definition failing_database : Projects.Database :=
  {| Projects.select_memberships := fun _ => Projects.mkQueryResult (Some ["p-1"]) None;
     Projects.select_projects := fun _ =>
       Projects.mkQueryResult None (Some (mkError "permission denied for table projects")) |}.

Definition working_database : Projects.Database :=
  {| Projects.select_memberships := fun _ => Projects.mkQueryResult (Some ["p-1"]) None;
     Projects.select_projects := fun _ => Projects.mkQueryResult (Some [tower]) None |}.

Definition stale_board : Projects.Board :=
  Projects.mkBoard [tower] true (Some "Failed to load projects. Please try again later.").

Definition one_choice : OpenAI.Client :=
  {| OpenAI.create := fun _ =>
       Normal (OpenAI.mkChatResponse [OpenAI.mkChoice (Some "Rebar spacing exceeds 200 mm.")]) |}.

End OtherSamples.

(** ** What the chosen files keep *)

Module Kept.

(** Every file has its preview and an image type, no preview is shown
    twice, every preview is a URL not yet revoked, and every such URL is one
    the browser created. *)
Definition chosen_ok {urls : UrlHost} (s : Chosen) : Prop :=
  length (previews s) = length (chosen_files s)
  /\ forallb is_image (chosen_files s) = true
  /\ NoDup (previews s)
  /\ (forall u, u ∈ previews s -> u ∈ urls_live s)
  /\ (forall u, u ∈ urls_live s -> exists n, (n < urls_created s)%nat /\ u = blob_url n).

End Kept.

Import Kept.

(** ** Strings: appending, splitting, scanning *)

Section StringFacts.

Lemma append_cons (x : ascii) (a b : string) : String x a +:+ b = String x (a +:+ b).
Proof. reflexivity. Qed.

Lemma append_nil_l (a : string) : "" +:+ a = a.
Proof. reflexivity. Qed.

Lemma append_assoc (a b c : string) : (a +:+ b) +:+ c = a +:+ (b +:+ c).
Proof.
  induction a as [|x a IH]; [reflexivity |].
  rewrite !append_cons. now rewrite IH.
Qed.

Lemma append_nil_r (a : string) : a +:+ "" = a.
Proof.
  induction a as [|x a IH]; [reflexivity |].
  rewrite append_cons. now rewrite IH.
Qed.

Lemma all_chars_app (p : ascii -> bool) (a b : string) :
  all_chars p (a +:+ b) = all_chars p a && all_chars p b.
Proof.
  induction a as [|x a IH]; [reflexivity |].
  rewrite append_cons. simpl. rewrite IH. now rewrite andb_assoc.
Qed.

Variable sep : ascii -> bool.


Lemma split_runs_last (b : bool) (t : string) :
  token sep t = true -> split_runs sep b t = [t].
Proof.
  revert b. induction t as [|c t IH]; intros b Ht; unfold token in *; simpl in *; [reflexivity |].
  apply andb_prop in Ht as [Hc Ht].
  apply negb_true_iff in Hc. rewrite Hc.
  now rewrite (IH false Ht).
Qed.

Lemma split_runs_skip (seps rest : string) :
  all_chars sep seps = true ->
  split_runs sep true (seps +:+ rest) = split_runs sep true rest.
Proof.
  induction seps as [|c seps IH]; intros Hs; [reflexivity |].
  rewrite append_cons. simpl in *.
  apply andb_prop in Hs as [Hc Hs]. rewrite Hc. now apply IH.
Qed.

Lemma split_runs_token (b : bool) (t seps rest : string) :
  token sep t = true ->
  (b = false \/ t <> "") ->
  seps <> "" -> all_chars sep seps = true ->
  split_runs sep b (t +:+ seps +:+ rest) = t :: split_runs sep true rest.
Proof.
  revert b. unfold token. induction t as [|c t IH]; intros b Ht Hb Hne Hs.
  - destruct Hb as [-> | Hb]; [| congruence].
    destruct seps as [|x seps]; [congruence |].
    rewrite append_nil_l, append_cons.
    simpl in *. apply andb_prop in Hs as [Hx Hs]. rewrite Hx.
    now rewrite split_runs_skip.
  - rewrite append_cons. simpl in *. apply andb_prop in Ht as [Hc Ht].
    apply negb_true_iff in Hc. rewrite Hc.
    rewrite (IH false Ht); auto.
Qed.

End StringFacts.

(** ** Scanning a numeral *)

Section ScanFacts.

Lemma span_digits_app (ds rest : string) :
  all_chars is_digit ds = true ->
  match rest with String c _ => is_digit c = false | EmptyString => True end ->
  span_digits (ds +:+ rest) = (ds, rest).
Proof.
  induction ds as [|c ds IH]; intros Hd Hr.
  - rewrite append_nil_l. destruct rest as [|c r]; [reflexivity |].
    simpl. now rewrite Hr.
  - rewrite append_cons. simpl in *. apply andb_prop in Hd as [Hc Hd].
    rewrite Hc, (IH Hd Hr). reflexivity.
Qed.

Lemma stops_not_digit (rest : string) :
  stops rest = true ->
  match rest with String c _ => is_digit c = false | EmptyString => True end.
Proof.
  destruct rest as [|c r]; [trivial |]. simpl. intros H.
  apply negb_true_iff in H. repeat (apply orb_false_elim in H as [H ?]). exact H.
Qed.

Lemma stops_no_point (rest : string) :
  stops rest = true ->
  match rest with
  | String "." r => span_digits r
  | _ => ("", rest)
  end = ("", rest).
Proof.
  destruct rest as [|c r]; [reflexivity |]. simpl. intros H.
  apply negb_true_iff in H. repeat (apply orb_false_elim in H as [H ?]).
  destruct c as [[] [] [] [] [] [] [] []]; try reflexivity; discriminate.
Qed.

Lemma stops_no_exponent (rest : string) :
  stops rest = true -> scan_exponent rest = 0%Z.
Proof.
  destruct rest as [|c r]; [reflexivity |]. simpl. intros H.
  apply negb_true_iff in H. repeat (apply orb_false_elim in H as [H ?]).
  unfold scan_exponent.
  replace (Ascii.eqb c "e" || Ascii.eqb c "E") with false; [reflexivity |].
  symmetry. apply orb_false_intro; assumption.
Qed.

Lemma digit_first (c : ascii) (t : string) :
  is_digit c = true ->
  parseFloat_string (String c t)
  = match str_unsigned_decimal (String c t) with
    | Some f => f
    | None => PrimFloat.nan
    end.
Proof.
  intros H.
  destruct c as [[] [] [] [] [] [] [] []]; try discriminate H; reflexivity.
Qed.

Lemma digit_not_Infinity (c : ascii) (t : string) :
  is_digit c = true -> String.prefix "Infinity" (String c t) = false.
Proof.
  intros H.
  destruct c as [[] [] [] [] [] [] [] []]; try discriminate H; reflexivity.
Qed.

Lemma numeral_first (n : Numeral) :
  numeral_ok n = true ->
  exists c t, is_digit c = true /\ numeral_text n = String c t.
Proof.
  destruct n as [ip fp]. unfold numeral_ok, numeral_text. simpl. intros H.
  apply andb_prop in H as [H _]. apply andb_prop in H as [Hne Hd].
  destruct ip as [|c ip]; [discriminate Hne |].
  simpl in Hd. apply andb_prop in Hd as [Hc _].
  destruct (String.eqb fp ""); eauto.
Qed.

Lemma parseFloat_numeral (n : Numeral) (rest : string) :
  numeral_ok n = true -> stops rest = true ->
  parseFloat (Some (numeral_text n +:+ rest)) = numeral_value n.
Proof.
  intros Hn Hr.
  destruct (numeral_first n Hn) as (c & t & Hc & Ht).
  unfold parseFloat. rewrite Ht, append_cons, digit_first by exact Hc.
  unfold str_unsigned_decimal. rewrite digit_not_Infinity by exact Hc.
  rewrite <- append_cons, <- Ht. clear c t Hc Ht.
  destruct n as [ip fp]. unfold numeral_ok, numeral_text, numeral_value in *.
  simpl in *.
  apply andb_prop in Hn as [Hn Hfp]. apply andb_prop in Hn as [Hne Hip].
  apply negb_true_iff in Hne.
  destruct (String.eqb fp "") eqn:Hfe.
  - apply String.eqb_eq in Hfe. subst fp.
    rewrite span_digits_app by (first [assumption | exact (stops_not_digit _ Hr)]).
    rewrite stops_no_point by exact Hr.
    rewrite Hne, append_nil_r, stops_no_exponent by exact Hr.
    reflexivity.
  - rewrite append_assoc. change ("." +:+ fp) with (String "." fp).
    rewrite (append_cons "." fp rest).
    rewrite span_digits_app by (try exact Hip; reflexivity).
    cbv beta iota.
    rewrite span_digits_app by (first [assumption | exact (stops_not_digit _ Hr)]).
    rewrite Hne, stops_no_exponent by exact Hr.
    reflexivity.
Qed.

End ScanFacts.

(** ** The coordinate normalizer *)

Section Normalizer.

Lemma all_chars_impl (p q : ascii -> bool) (s : string) :
  (forall c, p c = true -> q c = true) ->
  all_chars p s = true -> all_chars q s = true.
Proof.
  intros Hpq. induction s as [|c s IH]; simpl; [reflexivity |].
  intros H. apply andb_prop in H as [Hc Hs].
  now rewrite (Hpq c Hc), (IH Hs).
Qed.

Lemma digits_token (s : string) :
  all_chars is_digit s = true -> token dms_separator s = true.
Proof.
  apply all_chars_impl. intros c Hc. unfold dms_separator.
  now rewrite Hc.
Qed.

Lemma numeral_token (n : Numeral) :
  numeral_ok n = true -> token dms_separator (numeral_text n) = true.
Proof.
  destruct n as [ip fp]. unfold numeral_ok, numeral_text. simpl. intros H.
  apply andb_prop in H as [H Hfp]. apply andb_prop in H as [_ Hip].
  apply digits_token in Hip, Hfp.
  destruct (String.eqb fp ""); [exact Hip |].
  unfold token in *. rewrite !all_chars_app, Hip, Hfp. reflexivity.
Qed.

Lemma numeral_not_empty (n : Numeral) :
  numeral_ok n = true -> numeral_text n <> "".
Proof.
  intros H. destruct (numeral_first n H) as (c & t & _ & ->). discriminate.
Qed.

Lemma separator_run_inv (s : string) :
  separator_run s = true -> s <> "" /\ all_chars dms_separator s = true.
Proof.
  unfold separator_run. intros H. apply andb_prop in H as [Hne Hs].
  split; [| exact Hs]. apply negb_true_iff, String.eqb_neq in Hne. exact Hne.
Qed.

Lemma hemisphere_token (h : Hemisphere) :
  token dms_separator (hemisphere_text h) = true.
Proof. destruct h; reflexivity. Qed.

(** The four tokens [split] finds in a text of the source's form. *)
Lemma split_dms_text (d m s : Numeral) (h : Hemisphere) (sep1 sep2 sep3 : string) :
  numeral_ok d = true -> numeral_ok m = true -> numeral_ok s = true ->
  separator_run sep1 = true -> separator_run sep2 = true -> separator_run sep3 = true ->
  split_regex dms_separator (dms_text d m s h sep1 sep2 sep3)
  = [numeral_text d +:+ "deg"; numeral_text m; numeral_text s; hemisphere_text h].
Proof.
  intros Hd Hm Hs H1 H2 H3.
  apply separator_run_inv in H1 as [N1 S1], H2 as [N2 S2], H3 as [N3 S3].
  unfold split_regex, dms_text.
  rewrite <- (append_assoc (numeral_text d) "deg").
  rewrite split_runs_token; auto.
  2:{ unfold token. rewrite all_chars_app.
      fold (token dms_separator (numeral_text d)). now rewrite numeral_token. }
  rewrite split_runs_token; auto using numeral_token, numeral_not_empty.
  rewrite split_runs_token; auto using numeral_token, numeral_not_empty.
  rewrite split_runs_last; auto using hemisphere_token.
Qed.

End Normalizer.

(** C5, as amended.  For every text [Ddeg<sep>M<sep>S<sep>H], where D, M
    and S are unsigned decimal numerals, the unit [deg] is attached to D as
    in the source's example, each separator is a non-empty run of characters
    other than letters, digits, underscore and point, and H is one of N, S,
    E, W, [convertDMSToDecimal] returns [D + M/60 + S/3600] in binary64
    arithmetic, negated exactly when H is S or W. *)
Theorem convertDMSToDecimal_attached_deg
  (d m s : Numeral) (h : Hemisphere) (sep1 sep2 sep3 : string) :
  numeral_ok d = true -> numeral_ok m = true -> numeral_ok s = true ->
  separator_run sep1 = true -> separator_run sep2 = true -> separator_run sep3 = true ->
  convertDMSToDecimal (JStr (dms_text d m s h sep1 sep2 sep3)) = Some (dms_value d m s h).
Proof.
  intros Hd Hm Hs H1 H2 H3.
  unfold convertDMSToDecimal, split_receiver, bind, try_catch.
  rewrite split_dms_text by assumption.
  change ([numeral_text d +:+ "deg"; numeral_text m; numeral_text s; hemisphere_text h] !! 0%nat)
    with (Some (numeral_text d +:+ "deg")).
  change ([numeral_text d +:+ "deg"; numeral_text m; numeral_text s; hemisphere_text h] !! 1%nat)
    with (Some (numeral_text m)).
  change ([numeral_text d +:+ "deg"; numeral_text m; numeral_text s; hemisphere_text h] !! 2%nat)
    with (Some (numeral_text s)).
  change ([numeral_text d +:+ "deg"; numeral_text m; numeral_text s; hemisphere_text h] !! 3%nat)
    with (Some (hemisphere_text h)).
  rewrite (parseFloat_numeral d "deg") by (assumption || reflexivity).
  rewrite <- (append_nil_r (numeral_text m)), <- (append_nil_r (numeral_text s)).
  rewrite !parseFloat_numeral by (assumption || reflexivity).
  unfold dms_value. destruct h; reflexivity.
Qed.

Lemma convertDMSToDecimal_attached_deg_witness :
  convertDMSToDecimal
    (JStr (dms_text (mkNumeral "51" "") (mkNumeral "30" "") (mkNumeral "35" "66") West
                    " " "' " (double_quote +:+ " ")))
  = Some (dms_value (mkNumeral "51" "") (mkNumeral "30" "") (mkNumeral "35" "66") West).
Proof. apply convertDMSToDecimal_attached_deg; reflexivity. Defined.

(** C5, as the specification writes the form: with a space between D and
    [deg], the second token is [deg], the minutes are [NaN] and so is the
    result. *)
Lemma convertDMSToDecimal_spaced_deg_counterexample :
  convertDMSToDecimal
    (JStr (spec_dms_text (mkNumeral "51" "") (mkNumeral "30" "") (mkNumeral "35" "5") North))
  <> Some (dms_value (mkNumeral "51" "") (mkNumeral "30" "") (mkNumeral "35" "5") North).
Proof.
  intros H.
  apply (f_equal (fun o => match o with Some x => is_NaN x | None => false end)) in H.
  vm_compute in H. discriminate H.
Qed.

(** C1.  On a text with a token that is not a number, and on a text with
    tokens missing, [convertDMSToDecimal] returns [NaN]; on no string at all
    does it return [null]. *)
Theorem convertDMSToDecimal_malformed_NaN :
  convertDMSToDecimal (JStr "abc") = Some PrimFloat.nan
  /\ convertDMSToDecimal (JStr "51deg 30'") = Some PrimFloat.nan
  /\ forall s : string, convertDMSToDecimal (JStr s) <> None.
Proof.
  split; [reflexivity | split; [reflexivity |]].
  intros s. unfold convertDMSToDecimal, split_receiver, bind, try_catch.
  discriminate.
Qed.

(** ** The free-text location parser *)

Section Parser.

Lemma span_digits_spec (s ds r : string) :
  span_digits s = (ds, r) -> s = ds +:+ r /\ all_chars is_digit ds = true.
Proof.
  revert ds r. induction s as [|c s IH]; intros ds r H; simpl in H.
  - now inversion H.
  - destruct (is_digit c) eqn:Hc.
    + destruct (span_digits s) as [d' r'] eqn:Hs. inversion H; subst.
      destruct (IH d' r eq_refl) as [-> Hd].
      split; [reflexivity | simpl; now rewrite Hc, Hd].
    + now inversion H.
Qed.

Lemma is_F_not_digit (c : ascii) : is_F c = true -> is_digit c = false.
Proof.
  unfold is_F. intros H. apply orb_prop in H as [H | H];
    apply Ascii.eqb_eq in H; subst c; reflexivity.
Qed.

Lemma floor_at_spec (x d : string) : floor_at x = Some d <-> floor_match x d.
Proof.
  unfold floor_at, floor_match. split.
  - destruct (span_digits x) as [ds r] eqn:Hs.
    apply span_digits_spec in Hs as [-> Hd].
    destruct ds as [|a ds]; [discriminate |].
    destruct r as [|c post]; [discriminate |].
    destruct (is_F c) eqn:HF; [| discriminate].
    intros H. inversion H; subst. exists c, post. repeat split; auto; discriminate.
  - intros (c & post & -> & Hne & Hd & HF).
    rewrite span_digits_app; auto using is_F_not_digit.
    destruct d as [|a d]; [congruence |]. now rewrite HF.
Qed.

Lemma prefix_spec (p s : string) :
  String.prefix p s = true <-> exists post, s = p +:+ post.
Proof.
  revert s. induction p as [|a p IH]; intros s.
  - split; [intros _; now exists s | intros _; destruct s; reflexivity].
  - destruct s as [|b s]; simpl.
    + split; [discriminate | intros [post H]; discriminate H].
    + destruct (ascii_dec a b) as [-> | Hab].
      * rewrite IH. split; intros [post H]; exists post.
        -- now rewrite append_cons, H.
        -- rewrite append_cons in H. now inversion H.
      * split; [discriminate |]. intros [post H].
        rewrite append_cons in H. congruence.
Qed.

Lemma zone_at_spec (x z : string) : zone_at x = Some z <-> zone_match x z.
Proof.
  unfold zone_at, zone_match. split.
  - destruct x as [|c r]; [discriminate |].
    destruct (is_letter c) eqn:Hc; [| discriminate]. simpl.
    destruct (String.prefix zone_marker r) eqn:Hp; [| discriminate].
    apply prefix_spec in Hp as [post ->].
    intros H. inversion H; subst. now exists c, post.
  - intros (c & post & -> & Hc & ->).
    assert (Hp : String.prefix zone_marker (zone_marker +:+ post) = true)
      by (apply prefix_spec; now exists post).
    now rewrite append_cons, append_nil_l, Hc, Hp.
Qed.

Variable at_start : string -> option string.

Lemma first_match_sound (s g : string) :
  first_match at_start s = Some g ->
  exists pre x,
    s = pre +:+ x /\ at_start x = Some g /\
    forall pre1 x1, s = pre1 +:+ x1 -> at_start x1 <> None ->
                    String.length pre <= String.length pre1.
Proof.
  induction s as [|c s IH]; simpl.
  - destruct (at_start "") eqn:H0; [| discriminate].
    intros H. inversion H; subst. exists "", "". repeat split; auto.
    intros; simpl; lia.
  - destruct (at_start (String c s)) eqn:H0.
    + intros H. inversion H; subst. exists "", (String c s). repeat split; auto.
      intros; simpl; lia.
    + intros H. destruct (IH H) as (pre & x & -> & Hx & Hleft).
      exists (String c pre), x. repeat split; auto.
      intros pre1 x1 E Hx1. destruct pre1 as [|c1 pre1].
      * rewrite append_nil_l in E. subst x1. congruence.
      * rewrite !append_cons in E. injection E as _ Es.
        simpl. specialize (Hleft pre1 x1 Es Hx1). lia.
Qed.

Lemma first_match_none (s : string) :
  first_match at_start s = None ->
  forall pre x, s = pre +:+ x -> at_start x = None.
Proof.
  induction s as [|c s IH]; simpl.
  - destruct (at_start "") eqn:H0; [discriminate |].
    intros _ pre x E. destruct pre; [| discriminate E].
    rewrite append_nil_l in E. now subst.
  - destruct (at_start (String c s)) eqn:H0; [discriminate |].
    intros H pre x E. destruct pre as [|c1 pre].
    + rewrite append_nil_l in E. now subst.
    + rewrite append_cons in E. injection E as _ Es. exact (IH H pre x Es).
Qed.

End Parser.

Lemma first_match_occurrence (at_start : string -> option string)
      (P : string -> string -> Prop) (s : string) :
  (forall x g, at_start x = Some g <-> P x g) ->
  match first_match at_start s with
  | Some g => first_occurrence P s g
  | None => no_occurrence P s
  end.
Proof.
  intros HP. destruct (first_match at_start s) as [g|] eqn:Hm.
  - destruct (first_match_sound _ _ _ Hm) as (pre & x & E & Hx & Hleft).
    exists pre, x. repeat split; [exact E | now apply HP |].
    intros pre1 x1 g1 E1 H1. apply (Hleft pre1 x1 E1).
    apply HP in H1. congruence.
  - intros pre x g E H. apply HP in H.
    rewrite (first_match_none _ _ Hm pre x E) in H. discriminate.
Qed.

(** C8, as amended.  [extractLocationFromDescription] returns its input as
    [rawDescription]; [floor] is the integer of the first place where an
    integer is immediately followed by [F] or [f], and [zone] the letter, of
    either case and as written, of the first place where a single ASCII
    letter is immediately followed by the zone marker; a field with no such
    place is [null]; the two examples of the specification hold. *)
Theorem extractLocationFromDescription_hint (s : string) :
  rawDescription (extractLocationFromDescription s) = s
  /\ match floor (extractLocationFromDescription s) with
     | Some d => first_occurrence floor_match s d
     | None => no_occurrence floor_match s
     end
  /\ match zone (extractLocationFromDescription s) with
     | Some z => first_occurrence zone_match s z
     | None => no_occurrence zone_match s
     end
  /\ extractLocationFromDescription "4F B區"
     = mkLocationHint (Some "4") (Some "B") "4F B區"
  /\ extractLocationFromDescription "no pattern here"
     = mkLocationHint None None "no pattern here".
Proof.
  split; [reflexivity |].
  split; [apply first_match_occurrence, floor_at_spec |].
  split; [apply first_match_occurrence, zone_at_spec |].
  split; reflexivity.
Qed.

(** C8, as stated: in [b區] no uppercase letter stands before the zone
    marker, yet [zone] is [b] and not [null]. *)
Lemma zone_lowercase_counterexample :
  first_match spec_zone_at "b區" = None
  /\ zone (extractLocationFromDescription "b區") = Some "b".
Proof. split; reflexivity. Qed.

(** ** The metadata extractor *)

(** C10.  When the decoder yields both GPS tags and the latitude
    description is a string containing [deg], both decimal fields are
    assigned, each with what [convertDMSToDecimal] returns on the
    corresponding description; the longitude description is not looked at
    first, and when it is not a string its decimal field holds [null]. *)
Theorem extractExifData_assigns_decimals
  (file : File) (tags : gmap string Tag) (tlat tlon : Tag) (s : string) :
  exif_tags file = Normal tags ->
  tags !! "GPSLatitude" = Some tlat ->
  tags !! "GPSLongitude" = Some tlon ->
  description tlat = JStr s ->
  includes "deg" s = true ->
  exists e,
    extractExifData file = Some e
    /\ gps e = Some (mkGPS (JStr s) (description tlon)
                           (Some (convertDMSToDecimal (JStr s)))
                           (Some (convertDMSToDecimal (description tlon))))
    /\ (is_string (description tlon) = false ->
        longitudeDecimal <$> gps e = Some (Some None)).
Proof.
  intros Hfile Hlat Hlon Hdesc Hdeg.
  unfold extractExifData. rewrite Hfile. unfold bind, try_catch.
  rewrite Hlat, Hlon, Hdesc. simpl. rewrite Hdeg.
  destruct (tags !! "DateTimeOriginal"), (tags !! "DateTime");
    (eexists; split; [reflexivity |]; simpl; split; [reflexivity |]);
    intros Hns; destruct (description tlon); try discriminate Hns; reflexivity.
Qed.

Lemma extractExifData_assigns_decimals_witness :
  exists e,
    extractExifData Samples.file_numeric_longitude = Some e
    /\ gps e = Some (mkGPS (JStr "51deg 30' 35.5 N") (JNum 0.125)
                           (Some (convertDMSToDecimal (JStr "51deg 30' 35.5 N")))
                           (Some (convertDMSToDecimal (JNum 0.125))))
    /\ (is_string (JNum 0.125) = false ->
        longitudeDecimal <$> gps e = Some (Some None)).
Proof.
  apply (extractExifData_assigns_decimals Samples.file_numeric_longitude
           (<["GPSLatitude" := Samples.text_tag "51deg 30' 35.5 N"]>
            (<["GPSLongitude" := mkTag (JNum 0.125) (JNum 0.125)]> ∅))
           (Samples.text_tag "51deg 30' 35.5 N") (mkTag (JNum 0.125) (JNum 0.125))
           "51deg 30' 35.5 N"); reflexivity.
Defined.

Lemma no_relevant_tags_lookups (tags : gmap string Tag) :
  no_relevant_tags tags ->
  tags !! "DateTimeOriginal" = None /\ tags !! "DateTime" = None
  /\ tags !! "GPSLatitude" = None /\ tags !! "Make" = None
  /\ tags !! "Model" = None /\ tags !! "ImageWidth" = None.
Proof.
  unfold no_relevant_tags, relevant_tags. intros H.
  repeat match goal with
         | H : Forall _ (_ :: _) |- _ => inversion H; clear H; subst
         end.
  auto 10.
Qed.

(** C6, as amended.  [extractExifData] returns [null] exactly when the
    decoder throws, and the empty object, not [null], when the decoded tag
    set has none of the relevant tags; being a [try] block with a [catch]
    that returns, it raises on no file. *)
Theorem extractExifData_null_iff_decoder_throws (file : File) :
  (extractExifData file = None <-> exists e, exif_tags file = Throw e)
  /\ (forall tags, exif_tags file = Normal tags -> no_relevant_tags tags ->
                   extractExifData file = Some empty_exif).
Proof.
  unfold extractExifData. split.
  - destruct (exif_tags file) as [tags | e]; unfold bind, try_catch.
    + split; [| intros [e He]; discriminate He].
      destruct (tags !! "DateTimeOriginal"), (tags !! "DateTime"); discriminate.
    + split; [intros _; now exists e | reflexivity].
  - intros tags -> Hno. unfold bind, try_catch.
    destruct (no_relevant_tags_lookups tags Hno) as (-> & -> & -> & -> & -> & ->).
    reflexivity.
Qed.

Lemma extractExifData_null_iff_decoder_throws_witness :
  extractExifData Samples.file_without_tags = Some empty_exif.
Proof.
  apply (proj2 (extractExifData_null_iff_decoder_throws Samples.file_without_tags) ∅).
  - reflexivity.
  - unfold no_relevant_tags, relevant_tags. repeat constructor.
Defined.

(** C6, as stated: a file that decodes to no relevant tag does not give
    [null]. *)
Lemma extractExifData_no_tags_counterexample :
  no_relevant_tags ∅ /\ exif_tags Samples.file_without_tags = Normal ∅
  /\ extractExifData Samples.file_without_tags <> None.
Proof.
  split; [unfold no_relevant_tags, relevant_tags; repeat constructor |].
  split; [reflexivity | discriminate].
Qed.

(** C7, as amended.  In every object [extractExifData] returns with a [gps]
    property, both descriptions are the decoder's, kept as they are; the two
    decimal fields are present exactly when the latitude description is a
    string containing [deg], whatever the longitude description is and
    whether or not either matches the pattern; when present each holds what
    [convertDMSToDecimal] returned for its description, [null] included;
    otherwise both are missing, neither is zero. *)
Theorem extractExifData_decimal_fields (file : File) (e : ExifData) (g : GPS) :
  extractExifData file = Some e -> gps e = Some g ->
  exists tags tlat tlon,
    exif_tags file = Normal tags
    /\ tags !! "GPSLatitude" = Some tlat /\ tags !! "GPSLongitude" = Some tlon
    /\ latitude g = description tlat /\ longitude g = description tlon
    /\ if includes_deg (latitude g)
       then latitudeDecimal g = Some (convertDMSToDecimal (latitude g))
            /\ longitudeDecimal g = Some (convertDMSToDecimal (longitude g))
       else latitudeDecimal g = None /\ longitudeDecimal g = None.
Proof.
  unfold extractExifData. intros He Hg.
  destruct (exif_tags file) as [tags | err]; [| discriminate He].
  unfold bind, try_catch in He.
  destruct (tags !! "GPSLatitude") as [tlat|] eqn:Hlat;
    [destruct (tags !! "GPSLongitude") as [tlon|] eqn:Hlon |].
  - exists tags, tlat, tlon.
    destruct (tags !! "DateTimeOriginal"), (tags !! "DateTime");
      injection He as <-; simpl in Hg;
      (destruct (description tlat) as [| | b | x | s |] eqn:Hd; simpl in Hg;
       [injection Hg as <-; simpl; rewrite ?Hd; auto 10 ..
       | destruct (includes "deg" s) eqn:Hi; injection Hg as <-; simpl;
         rewrite ?Hd; simpl; rewrite ?Hi; auto 10
       | injection Hg as <-; simpl; rewrite ?Hd; auto 10 ]).
  - destruct (tags !! "DateTimeOriginal"), (tags !! "DateTime");
      injection He as <-; discriminate Hg.
  - destruct (tags !! "DateTimeOriginal"), (tags !! "DateTime");
      injection He as <-; discriminate Hg.
Qed.

Lemma extractExifData_decimal_fields_witness :
  exists tags tlat tlon,
    exif_tags Samples.file_bare_deg = Normal tags
    /\ tags !! "GPSLatitude" = Some tlat /\ tags !! "GPSLongitude" = Some tlon
    /\ JStr "deg" = description tlat /\ JStr "x" = description tlon
    /\ (Some (Some PrimFloat.nan) = Some (convertDMSToDecimal (JStr "deg"))
        /\ Some (Some PrimFloat.nan) = Some (convertDMSToDecimal (JStr "x"))).
Proof.
  exact (extractExifData_decimal_fields Samples.file_bare_deg
           (mkExifData None None
              (Some (mkGPS (JStr "deg") (JStr "x")
                           (Some (Some PrimFloat.nan)) (Some (Some PrimFloat.nan))))
              None None None)
           (mkGPS (JStr "deg") (JStr "x")
                  (Some (Some PrimFloat.nan)) (Some (Some PrimFloat.nan)))
           eq_refl eq_refl).
Defined.

(** C7, as stated: a longitude description that is a number matches no
    pattern and its conversion fails with [null], yet the object carries the
    field [longitudeDecimal]; and the description [deg] alone does not
    match the pattern either, yet both decimal fields are there. *)
Lemma decimal_field_without_pattern_counterexample :
  convertDMSToDecimal (JNum 0.125) = None
  /\ (extractExifData Samples.file_numeric_longitude ≫= gps)
     = Some (mkGPS (JStr "51deg 30' 35.5 N") (JNum 0.125)
                   (Some (convertDMSToDecimal (JStr "51deg 30' 35.5 N")))
                   (Some None))
  /\ spec_dms_pattern "deg" = false
  /\ (latitudeDecimal <$> (extractExifData Samples.file_bare_deg ≫= gps)) <> Some None.
Proof. repeat split. discriminate. Qed.

(** C9.  [extractGPSCoordinates] returns a pair exactly when [gps] is there
    and both decimal fields hold truthy numbers, and then the pair is those
    two numbers; so when either decimal is zero, as on the equator or on
    the prime meridian, it returns [null]. *)
Theorem extractGPSCoordinates_iff_truthy (e : ExifData) :
  (forall c,
      extractGPSCoordinates (Some e) = Some c <->
      exists g la lo,
        gps e = Some g
        /\ latitudeDecimal g = Some (Some la) /\ longitudeDecimal g = Some (Some lo)
        /\ truthy_number la = true /\ truthy_number lo = true
        /\ c = mkCoordinates la lo)
  /\ (forall g,
         gps e = Some g ->
         latitudeDecimal g = Some (Some 0%float) \/ longitudeDecimal g = Some (Some 0%float) ->
         extractGPSCoordinates (Some e) = None).
Proof.
  unfold extractGPSCoordinates, try_catch. split.
  - intros c. split.
    + destruct (gps e) as [g|]; [| discriminate].
      destruct (latitudeDecimal g) as [[la|]|] eqn:Ela,
               (longitudeDecimal g) as [[lo|]|] eqn:Elo;
        cbn [truthy_decimal held_number andb];
        rewrite ?andb_false_r; try discriminate.
      destruct (truthy_number la) eqn:Hla, (truthy_number lo) eqn:Hlo;
        cbn [andb]; try discriminate.
      intros H. injection H as <-. exists g, la, lo. auto 10.
    + intros (g & la & lo & -> & Hla & Hlo & Tla & Tlo & ->).
      rewrite Hla, Hlo. cbn [truthy_decimal held_number]. now rewrite Tla, Tlo.
  - intros g -> [H | H]; rewrite H; cbn [truthy_decimal];
      change (truthy_number 0) with false; rewrite ?andb_false_r; reflexivity.
Qed.

Lemma extractGPSCoordinates_iff_truthy_witness :
  extractGPSCoordinates (Some Samples.exif_on_equator) = None.
Proof.
  apply (proj2 (extractGPSCoordinates_iff_truthy Samples.exif_on_equator)
               (mkGPS (JStr "0deg 0' 0 N") (JStr "10deg 30' 0 E")
                      (Some (Some 0%float)) (Some (Some 10.5%float)))).
  - reflexivity.
  - left. reflexivity.
Defined.

(** ** The ingestion loop *)

Import Batch.

Section Pipeline.
Context {host : DateHost} (cfg : Config).
Context (user : option string) (projectId locationDescription description : string).

Local Abbreviation process_file := (process_file cfg user projectId locationDescription description).
Local Abbreviation process_from := (process_from cfg user projectId locationDescription description).
Local Abbreviation handleSubmit := (handleSubmit cfg user projectId locationDescription description).
Local Abbreviation commits := (commits cfg user projectId locationDescription description).
Local Abbreviation fails := (fails cfg user projectId locationDescription description).
Local Abbreviation all_commit := (all_commit cfg user projectId locationDescription description).

Lemma process_file_commits (env : Env) (total i : nat) (file : File)
      (row : PhotoRecord) (w : World) :
  commits env i file row ->
  process_file env total i file w
  = (Normal tt,
     mkWorld (error w) (isLoading w)
             (float_of_Z (Z.of_nat (i + 1)) / float_of_Z (Z.of_nat total) * 100)%float
             (uploading_status total i) (route w)
             (bucket w ++ [(path_of projectId env i file, file)])
             (photos w ++ [row])).
Proof.
  intros (wd & gd & t & He & Hu & Ht & -> & Hi).
  unfold process_file, Upload.process_file, mbind, lift, storage_upload, photos_insert,
    setUploadStatus, setUploadProgress, throw.
  unfold row_of in *. unfold exif_of, path_of in *.
  rewrite He. cbv beta iota. rewrite Hu. cbv beta iota.
  rewrite Ht. cbv beta iota. rewrite Hi. reflexivity.
Qed.

Lemma process_file_fails (env : Env) (total i : nat) (file : File)
      (f : Failure) (msg : string) (w : World) :
  fails env i file f msg ->
  process_file env total i file w
  = (Throw (mkError (failure_prefix f +:+ msg)),
     mkWorld (error w) (isLoading w) (uploadProgress w)
             (uploading_status total i) (route w)
             (bucket w ++ List.map (fun p => (p, file)) (stored_by projectId env i file f))
             (photos w)).
Proof.
  intros (wd & gd & He & Hf).
  unfold process_file, Upload.process_file, mbind, lift, storage_upload, photos_insert,
    setUploadStatus, setUploadProgress, throw.
  unfold row_of, stored_by in *. unfold exif_of, path_of in *.
  rewrite He. cbv beta iota. destruct f.
  - rewrite Hf. cbn [List.map]. now rewrite app_nil_r.
  - destruct Hf as (Hu & t & Ht & Hi).
    rewrite Hu. cbv beta iota. rewrite Ht. cbv beta iota. rewrite Hi. reflexivity.
Qed.

Lemma process_from_app (envs : nat -> Env) (total i : nat) (l1 l2 : list File) (w : World) :
  process_from envs total i (l1 ++ l2) w
  = match process_from envs total i l1 w with
    | (Normal _, w1) => process_from envs total (i + length l1) l2 w1
    | (Throw e, w1) => (Throw e, w1)
    end.
Proof.
  revert i w. induction l1 as [|file l1 IH]; intros i w;
    cbn [Upload.process_from app length].
  - unfold ret. now rewrite Nat.add_0_r.
  - unfold mbind.
    destruct (process_file (envs i) total i file w) as [[[] | e] w1]; [| reflexivity].
    rewrite IH. now replace (S i + length l1)%nat with (i + S (length l1))%nat by lia.
Qed.

(** While every file commits, the loop runs on: one row and one object per
    file, in the order of the files, and nothing else changes but the
    progress and the status. *)
Lemma process_from_commits (envs : nat -> Env) (total : nat) (files : list File) :
  forall (i : nat) (rows : list PhotoRecord) (w : World),
    all_commit envs i files rows ->
    exists w',
      process_from envs total i files w = (Normal tt, w')
      /\ photos w' = (photos w ++ rows)%list
      /\ List.map fst (bucket w')
         = (List.map fst (bucket w) ++ List.map storage_path rows)%list
      /\ error w' = error w /\ isLoading w' = isLoading w /\ route w' = route w.
Proof.
  induction files as [|file files IH]; intros i rows w H; destruct rows as [|row rows];
    cbn [Batch.all_commit] in H; try contradiction.
  - exists w. cbn [Upload.process_from List.map]. unfold ret.
    rewrite !app_nil_r. auto 10.
  - destruct H as [Hc Hrest]. cbn [Upload.process_from]. unfold mbind.
    rewrite (process_file_commits _ total _ _ _ w Hc).
    match goal with
    | |- exists w', _ ?W = _ /\ _ =>
        destruct (IH (S i) rows W Hrest) as (w' & Hrun & Hp & Hb & He & Hl & Hr)
    end.
    exists w'. simpl in Hp, Hb, He, Hl, Hr.
    split; [exact Hrun |].
    split; [now rewrite Hp, <- List.app_assoc |].
    split; [| auto].
    rewrite Hb, List.map_app, <- List.app_assoc.
    destruct Hc as (wd & gd & t & _ & _ & _ & -> & _). reflexivity.
Qed.

End Pipeline.

Section PipelineClaims.
Context {host : DateHost} (cfg : Config).
Context (user : option string) (projectId locationDescription description : string).

Local Abbreviation process_file := (process_file cfg user projectId locationDescription description).
Local Abbreviation handleSubmit := (handleSubmit cfg user projectId locationDescription description).
Local Abbreviation commits := (commits cfg user projectId locationDescription description).
Local Abbreviation fails := (fails cfg user projectId locationDescription description).
Local Abbreviation all_commit := (all_commit cfg user projectId locationDescription description).

Lemma failure_message_not_empty (f : Failure) (msg : string) :
  String.eqb (failure_prefix f +:+ msg) "" = false.
Proof. destruct f; reflexivity. Qed.

(** The world [handleSubmit] leaves when the files before the failing one
    all commit. *)
Lemma handleSubmit_failure_world
  (envs : nat -> Env) (before after : list File) (file : File)
  (rows : list PhotoRecord) (f : Failure) (msg : string) (w : World) :
  projectId <> "" ->
  all_commit envs 0 before rows ->
  fails (envs (length before)) (length before) file f msg ->
  exists w1,
    photos w1 = (photos w ++ rows)%list
    /\ List.map fst (bucket w1)
       = (List.map fst (bucket w) ++ List.map storage_path rows)%list
    /\ route w1 = route w
    /\ handleSubmit envs (before ++ file :: after) w
       = mkWorld (Some (failure_prefix f +:+ msg)) false (uploadProgress w1)
                 (uploading_status (length (before ++ file :: after)) (length before))
                 (route w1)
                 (bucket w1 ++ List.map (fun p => (p, file))
                            (stored_by projectId (envs (length before))
                                       (length before) file f))
                 (photos w1).
Proof.
  intros Hproj Hbefore Hfail. unfold handleSubmit, Upload.handleSubmit.
  apply String.eqb_neq in Hproj. rewrite Hproj.
  remember (before ++ file :: after)%list as files eqn:Hfiles.
  destruct files as [|f0 rest]; [destruct before; discriminate Hfiles |].
  rewrite Hfiles. clear f0 rest Hfiles.
  unfold mbind at 1 2 3 4. unfold setIsLoading, setError, setUploadProgress.
  unfold setUploadStatus at 1. cbv beta iota.
  cbn [error isLoading uploadProgress uploadStatus route bucket photos].
  unfold mbind at 1. rewrite process_from_app.
  match goal with
  | |- context [Upload.process_from _ _ _ _ _ _ ?n 0%nat before ?W] =>
      destruct (process_from_commits cfg user projectId locationDescription description
                  envs n before 0%nat rows W Hbefore)
        as (w1 & Hrun & Hp & Hb & He & Hl & Hr)
  end.
  exists w1. simpl in Hp, Hb, Hr. repeat (split; [assumption |]).
  rewrite Hrun. cbn [Upload.process_from Nat.add]. unfold mbind at 1.
  rewrite (process_file_fails cfg user projectId locationDescription description
             _ _ _ _ f msg w1 Hfail).
  cbn [message]. rewrite failure_message_not_empty.
  unfold mbind, setError, setIsLoading.
  cbn [snd fst photos bucket error isLoading route uploadStatus uploadProgress].
  reflexivity.
Qed.

(** C2.  In a batch whose files before index [i] all commit, leaving
    [rows], and whose file [i] reaches its upload or its insert and gets an
    error with message [msg] there: the table holds the rows it had and
    [rows], nothing of file [i] or of a later file; the bucket holds what it
    had, the objects of the files before [i] and, when it is the insert
    that failed, the object of file [i]; the status still names file [i];
    and the caller is shown [msg], behind the prefix of the failing step. *)
Theorem handleSubmit_stops_at_failure
  (envs : nat -> Env) (before after : list File) (file : File)
  (rows : list PhotoRecord) (f : Failure) (msg : string) (w : World) :
  projectId <> "" ->
  all_commit envs 0 before rows ->
  fails (envs (length before)) (length before) file f msg ->
  let w' := handleSubmit envs (before ++ file :: after) w in
  photos w' = (photos w ++ rows)%list
  /\ List.map fst (bucket w')
     = (List.map fst (bucket w) ++ List.map storage_path rows
          ++ stored_by projectId (envs (length before)) (length before) file f)%list
  /\ error w' = Some (failure_prefix f +:+ msg)
  /\ isLoading w' = false
  /\ route w' = route w
  /\ uploadStatus w'
     = uploading_status (length (before ++ file :: after)) (length before).
Proof.
  intros Hproj Hbefore Hfail w'.
  destruct (handleSubmit_failure_world envs before after file rows f msg w
              Hproj Hbefore Hfail) as (w1 & Hp & Hb & Hr & Hw).
  subst w'. rewrite Hw.
  cbn [photos bucket error isLoading route uploadStatus].
  rewrite List.map_app, Hb, List.map_map, <- List.app_assoc.
  cbn [fst]. rewrite List.map_id. auto 10.
Qed.

Lemma getWeatherData_with_key (net : Network) (la lo t : number) :
  key_missing (OPENWEATHER_API_KEY cfg) = false ->
  exists wd,
    getWeatherData cfg (net := net) la lo t = Normal wd
    /\ (forall e,
          get_timemachine (Network := net) la lo t (default "" (OPENWEATHER_API_KEY cfg))
          = Throw e ->
          wd = None).
Proof.
  intros Hk. unfold getWeatherData. rewrite Hk.
  eexists. split; [reflexivity |]. intros e ->. reflexivity.
Qed.

Lemma getLocationFromCoordinates_with_key (net : Network) (la lo : number) :
  key_missing (GOOGLE_MAPS_API_KEY cfg) = false ->
  exists gd,
    getLocationFromCoordinates cfg (net := net) la lo = Normal gd
    /\ (forall e,
          get_geocode (Network := net) la lo (default "" (GOOGLE_MAPS_API_KEY cfg))
          = Throw e ->
          gd = None).
Proof.
  intros Hk. unfold getLocationFromCoordinates. rewrite Hk.
  eexists. split; [reflexivity |]. intros e ->. reflexivity.
Qed.

(** With both keys set the lookups of a file return; what they return for
    a request that is rejected is [null]. *)
Lemma enrich_with_keys (env : Env) (d : option Date) (c : option Coordinates) :
  key_missing (OPENWEATHER_API_KEY cfg) = false ->
  key_missing (GOOGLE_MAPS_API_KEY cfg) = false ->
  exists wd gd,
    enrich cfg env d c = Normal (wd, gd)
    /\ (forall c0 d0 e,
          c = Some c0 -> d = Some d0 ->
          get_timemachine (Network := network env) (lat c0) (lon c0)
            (Math_floor (getTime d0 / 1000)) (default "" (OPENWEATHER_API_KEY cfg))
          = Throw e ->
          wd = None)
    /\ (forall c0 e,
          c = Some c0 ->
          get_geocode (Network := network env) (lat c0) (lon c0)
            (default "" (GOOGLE_MAPS_API_KEY cfg))
          = Throw e ->
          gd = None).
Proof.
  intros Hw Hg. unfold enrich. destruct c as [c|].
  - destruct (getLocationFromCoordinates_with_key (network env) (lat c) (lon c) Hg)
      as (gd & -> & Hgd).
    destruct d as [d|].
    + destruct (getWeatherData_with_key (network env) (lat c) (lon c)
                  (Math_floor (getTime d / 1000)) Hw) as (wd & -> & Hwd).
      exists wd, gd. split; [reflexivity |]. split.
      * intros c0 d0 e [= <-] [= <-]. apply Hwd.
      * intros c0 e [= <-]. apply Hgd.
    + exists None, gd. split; [reflexivity |]. split.
      * intros c0 d0 e _ [=].
      * intros c0 e [= <-]. apply Hgd.
  - exists None, None. split; [reflexivity |]. split.
    + intros c0 d0 e [=].
    + intros c0 e [=].
Qed.

(** C3.  With both keys configured, whatever the two endpoints do, a file
    whose upload and insert are accepted (and whose capture time, if any,
    prints) is ingested: its row is appended with status [pending].  When
    the weather request made for the file, at its position and capture
    time, is rejected, [getWeatherData] returns [null] for it and the row's
    [weather_data] is [null]; likewise when the geocoding request made for
    the file is rejected, [getLocationFromCoordinates] returns [null] and
    the row's [geo_data] is [null]. *)
Theorem enrichment_failure_keeps_file
  (env : Env) (total i : nat) (file : File) (w : World) :
  key_missing (OPENWEATHER_API_KEY cfg) = false ->
  key_missing (GOOGLE_MAPS_API_KEY cfg) = false ->
  (exists t, taken_at_of (date_of (extractExifData file)) = Normal t) ->
  upload_error env (file_path projectId env i file) file = None ->
  (forall row, insert_error env row = None) ->
  exists row w',
    process_file env total i file w = (Normal tt, w')
    /\ photos w' = (photos w ++ [row])%list
    /\ ai_processing_status row = "pending"
    /\ (forall c d e,
          coordinates_of (extractExifData file) = Some c ->
          date_of (extractExifData file) = Some d ->
          get_timemachine (Network := network env) (lat c) (lon c)
            (Math_floor (getTime d / 1000)) (default "" (OPENWEATHER_API_KEY cfg))
          = Throw e ->
          getWeatherData cfg (net := network env) (lat c) (lon c)
            (Math_floor (getTime d / 1000)) = Normal None
          /\ weather_data row = None)
    /\ (forall c e,
          coordinates_of (extractExifData file) = Some c ->
          get_geocode (Network := network env) (lat c) (lon c)
            (default "" (GOOGLE_MAPS_API_KEY cfg))
          = Throw e ->
          getLocationFromCoordinates cfg (net := network env) (lat c) (lon c) = Normal None
          /\ geo_data row = None).
Proof.
  intros Hw Hg [t Ht] Hu Hi.
  destruct (enrich_with_keys env (date_of (extractExifData file))
              (coordinates_of (extractExifData file)) Hw Hg) as (wd & gd & He & Hwd & Hgd).
  pose (row := row_of user projectId locationDescription description env i file wd gd t).
  assert (Hc : commits env i file row).
  { exists wd, gd, t. unfold exif_of, path_of. repeat split; auto. }
  exists row. eexists. split; [exact (process_file_commits cfg user projectId locationDescription description
                         env total i file row w Hc) |].
  split; [reflexivity |]. split; [reflexivity |]. split.
  - intros c d e Hco Hd Hrej. split; [| exact (Hwd c d e Hco Hd Hrej)].
    destruct (getWeatherData_with_key (network env) (lat c) (lon c)
                (Math_floor (getTime d / 1000)) Hw) as (x & -> & Hx).
    now rewrite (Hx e Hrej).
  - intros c e Hco Hrej. split; [| exact (Hgd c e Hco Hrej)].
    destruct (getLocationFromCoordinates_with_key (network env) (lat c) (lon c) Hg)
      as (x & -> & Hx).
    now rewrite (Hx e Hrej).
Qed.

(** The lookups of a file throw exactly at a failing key check, with its
    message. *)
Lemma enrich_throws_iff (env : Env) (d : option Date) (c : option Coordinates) (e : JsError) :
  enrich cfg env d c = Throw e <-> missing_key cfg d c = Some (message e).
Proof.
  unfold enrich, missing_key, getWeatherData, getLocationFromCoordinates.
  destruct e as [m]. cbn [message].
  destruct c as [c|]; [| split; discriminate].
  destruct d as [d|].
  - destruct (key_missing (OPENWEATHER_API_KEY cfg)); cbn [bind].
    + split; intros [= <-]; reflexivity.
    + destruct (key_missing (GOOGLE_MAPS_API_KEY cfg)); cbn [bind];
        split; intros H; try discriminate H; injection H as <-; reflexivity.
  - cbn [bind]. destruct (key_missing (GOOGLE_MAPS_API_KEY cfg)); cbn [bind];
      split; intros H; try discriminate H; injection H as <-; reflexivity.
Qed.

Lemma missing_key_not_empty (d : option Date) (c : option Coordinates) (m : string) :
  missing_key cfg d c = Some m -> String.eqb m "" = false.
Proof.
  unfold missing_key. destruct c; [| discriminate].
  destruct (match d with Some _ => _ | None => _ end); [now intros [= <-] |].
  destruct (key_missing (GOOGLE_MAPS_API_KEY cfg)); [now intros [= <-] | discriminate].
Qed.

Lemma process_file_missing_key
  (env : Env) (total i : nat) (file : File) (m : string) (w : World) :
  missing_key_of cfg file = Some m ->
  process_file env total i file w
  = (Throw (mkError m),
     mkWorld (error w) (isLoading w) (uploadProgress w)
             (processing_status total i) (route w) (bucket w) (photos w)).
Proof.
  intros H. apply (proj2 (enrich_throws_iff env _ _ (mkError m))) in H.
  unfold process_file, Upload.process_file, mbind, lift, setUploadStatus.
  rewrite H. reflexivity.
Qed.

Lemma commits_needs_no_missing_key (env : Env) (i : nat) (file : File) (row : PhotoRecord) :
  commits env i file row -> missing_key_of cfg file = None.
Proof.
  intros (wd & gd & t & He & _). unfold exif_of in He.
  destruct (missing_key_of cfg file) as [m|] eqn:Hm; [| reflexivity].
  apply (proj2 (enrich_throws_iff env _ _ (mkError m))) in Hm.
  rewrite Hm in He. discriminate He.
Qed.

(** The world [handleSubmit] leaves when the files before the one that
    runs into a missing key all commit. *)
Lemma handleSubmit_missing_key
  (envs : nat -> Env) (before after : list File) (file : File)
  (rows : list PhotoRecord) (m : string) (w : World) :
  projectId <> "" ->
  all_commit envs 0 before rows ->
  missing_key_of cfg file = Some m ->
  exists w1,
    photos w1 = (photos w ++ rows)%list
    /\ List.map fst (bucket w1)
       = (List.map fst (bucket w) ++ List.map storage_path rows)%list
    /\ route w1 = route w
    /\ handleSubmit envs (before ++ file :: after) w
       = mkWorld (Some m) false (uploadProgress w1)
                 (processing_status (length (before ++ file :: after)) (length before))
                 (route w1) (bucket w1) (photos w1).
Proof.
  intros Hproj Hbefore Hkey. unfold handleSubmit, Upload.handleSubmit.
  apply String.eqb_neq in Hproj. rewrite Hproj.
  remember (before ++ file :: after)%list as files eqn:Hfiles.
  destruct files as [|f0 rest]; [destruct before; discriminate Hfiles |].
  rewrite Hfiles. clear f0 rest Hfiles.
  unfold mbind at 1 2 3 4. unfold setIsLoading, setError, setUploadProgress.
  unfold setUploadStatus at 1. cbv beta iota.
  cbn [error isLoading uploadProgress uploadStatus route bucket photos].
  unfold mbind at 1. rewrite process_from_app.
  match goal with
  | |- context [Upload.process_from _ _ _ _ _ _ ?n 0%nat before ?W] =>
      destruct (process_from_commits cfg user projectId locationDescription description
                  envs n before 0%nat rows W Hbefore)
        as (w1 & Hrun & Hp & Hb & He & Hl & Hr)
  end.
  exists w1. simpl in Hp, Hb, Hr. repeat (split; [assumption |]).
  rewrite Hrun. cbn [Upload.process_from Nat.add]. unfold mbind at 1.
  rewrite (process_file_missing_key _ _ _ _ m w1 Hkey).
  cbn [message]. rewrite (missing_key_not_empty _ _ m Hkey).
  unfold mbind, setError, setIsLoading.
  cbn [snd fst photos bucket error isLoading route uploadStatus uploadProgress].
  reflexivity.
Qed.

(** C4, as amended.  Loading the module raises nothing, whatever the
    environment holds.  A missing (or empty) key is found at each call:
    [getWeatherData] and [getLocationFromCoordinates] throw their
    [Missing ... API key] error before any request.  The lookups of a file
    throw exactly when one of the calls they make finds its key missing:
    the weather call, made for a file with a position and a capture time,
    or else the geocoding call, made for every file with a position; a file
    that commits ran into no missing key.  In [handleSubmit] that error is
    not caught per file: when the files before all commit, the batch ends
    at the first file that runs into a missing key, with the rows and
    objects of the files before it, nothing uploaded or inserted for it or
    for a later file, and the key's message shown. *)
Theorem missing_key_fails_at_call
  (envs : nat -> Env) (before after : list File) (file : File)
  (rows : list PhotoRecord) (w : World) :
  (forall process_env, exists cfg', load_module process_env = Normal cfg')
  /\ (key_missing (OPENWEATHER_API_KEY cfg) = true ->
      forall net la lo t,
        getWeatherData cfg (net := net) la lo t
        = Throw (mkError "Missing OpenWeather API key"))
  /\ (key_missing (GOOGLE_MAPS_API_KEY cfg) = true ->
      forall net la lo,
        getLocationFromCoordinates cfg (net := net) la lo
        = Throw (mkError "Missing Google Maps API key"))
  /\ (forall env f e,
        enrich cfg env (date_of (extractExifData f)) (coordinates_of (extractExifData f))
        = Throw e
        <-> missing_key_of cfg f = Some (message e))
  /\ (forall env i f row, commits env i f row -> missing_key_of cfg f = None)
  /\ (forall m,
        projectId <> "" ->
        all_commit envs 0 before rows ->
        missing_key_of cfg file = Some m ->
        let w' := handleSubmit envs (before ++ file :: after) w in
        photos w' = (photos w ++ rows)%list
        /\ List.map fst (bucket w')
           = (List.map fst (bucket w) ++ List.map storage_path rows)%list
        /\ error w' = Some m
        /\ isLoading w' = false
        /\ route w' = route w
        /\ uploadStatus w'
           = processing_status (length (before ++ file :: after)) (length before)).
Proof.
  split; [intros process_env; eexists; reflexivity |].
  split; [intros Hk net la lo t; unfold getWeatherData; now rewrite Hk |].
  split; [intros Hk net la lo; unfold getLocationFromCoordinates; now rewrite Hk |].
  split; [intros env f e; apply enrich_throws_iff |].
  split; [exact commits_needs_no_missing_key |].
  intros m Hproj Hbefore Hkey w'.
  destruct (handleSubmit_missing_key envs before after file rows m w Hproj Hbefore Hkey)
    as (w1 & Hp & Hb & Hr & Hw).
  subst w'. rewrite Hw. cbn [photos bucket error isLoading route uploadStatus].
  auto 10.
Qed.

End PipelineClaims.

Lemma handleSubmit_stops_at_failure_witness :
  let w' :=
    handleSubmit (host := Samples.fixed_clock) Samples.keys (Some "inspector-1")
      "tower-b" "4F" "rebar spacing" Samples.second_upload_fails
      ([Samples.bare_photo "a.jpg"] ++ Samples.bare_photo "b.jpg" :: [Samples.bare_photo "c.jpg"])
      Samples.idle in
  photos w'
  = ([] ++ [photo_row (Some "inspector-1") "tower-b" "4F" "rebar spacing"
              "tower-b/1710498600000-0.jpg" None None None None])%list
  /\ List.map fst (bucket w')
     = ([] ++ ["tower-b/1710498600000-0.jpg"] ++ [])%list
  /\ error w' = Some "Error uploading file: Payload too large"
  /\ isLoading w' = false
  /\ route w' = None
  /\ uploadStatus w' = "Uploading file 2 of 3...".
Proof.
  apply (handleSubmit_stops_at_failure (host := Samples.fixed_clock) Samples.keys
           (Some "inspector-1") "tower-b" "4F" "rebar spacing" Samples.second_upload_fails
           [Samples.bare_photo "a.jpg"] [Samples.bare_photo "c.jpg"]
           (Samples.bare_photo "b.jpg")
           [photo_row (Some "inspector-1") "tower-b" "4F" "rebar spacing"
              "tower-b/1710498600000-0.jpg" None None None None]
           UploadFailure "Payload too large" Samples.idle).
  - discriminate.
  - split; [| exact I]. exists None, None, None. repeat split; reflexivity.
  - exists None, None. split; reflexivity.
Defined.

Lemma enrichment_failure_keeps_file_witness :
  exists row w',
    process_file (host := Samples.fixed_clock) Samples.keys (Some "inspector-1")
      "tower-b" "4F" "rebar spacing" (Samples.accepting 1710498600000) 1 0
      Samples.located_photo Samples.idle = (Normal tt, w')
    /\ photos w' = (photos Samples.idle ++ [row])%list
    /\ ai_processing_status row = "pending"
    /\ weather_data row = None
    /\ geo_data row = None.
Proof.
  destruct (enrichment_failure_keeps_file (host := Samples.fixed_clock) Samples.keys
              (Some "inspector-1") "tower-b" "4F" "rebar spacing"
              (Samples.accepting 1710498600000) 1 0 Samples.located_photo Samples.idle)
    as (row & w' & Hp & Hph & Hs & Hw & Hg).
  - reflexivity.
  - reflexivity.
  - exists (Some "2024-03-15T10:30:00.000Z"). reflexivity.
  - reflexivity.
  - reflexivity.
  - exists row, w'. repeat (split; [assumption |]). split.
    + apply (Hw undated_position 1710498600000%float (mkError "timeout of 0ms exceeded"));
        reflexivity.
    + apply (Hg undated_position (mkError "Network Error")); reflexivity.
Defined.

(** With only the Google Maps key configured, an undated photo with a
    position is ingested and the batch stops at the dated one after it. *)
Lemma missing_key_fails_at_call_witness :
  let w' :=
    handleSubmit (host := Samples.fixed_clock) maps_key_only (Some "inspector-1")
      "tower-b" "4F" "rebar spacing" (fun _ => Samples.accepting 1710498600000)
      ([undated_photo] ++ Samples.located_photo :: [Samples.bare_photo "c.jpg"])
      Samples.idle in
  photos w'
  = (photos Samples.idle
       ++ [photo_row (Some "inspector-1") "tower-b" "4F" "rebar spacing"
             "tower-b/1710498600000-0.jpg" (extractExifData undated_photo)
             None None None])%list
  /\ List.map fst (bucket w')
     = (List.map fst (bucket Samples.idle)
          ++ List.map storage_path
               [photo_row (Some "inspector-1") "tower-b" "4F" "rebar spacing"
                  "tower-b/1710498600000-0.jpg" (extractExifData undated_photo)
                  None None None])%list
  /\ error w' = Some "Missing OpenWeather API key"
  /\ isLoading w' = false
  /\ route w' = route Samples.idle
  /\ uploadStatus w'
     = processing_status
         (length ([undated_photo] ++ Samples.located_photo :: [Samples.bare_photo "c.jpg"]))
         (length [undated_photo]).
Proof.
  apply (proj2 (proj2 (proj2 (proj2 (proj2
           (missing_key_fails_at_call (host := Samples.fixed_clock) maps_key_only
              (Some "inspector-1") "tower-b" "4F" "rebar spacing"
              (fun _ => Samples.accepting 1710498600000)
              [undated_photo] [Samples.bare_photo "c.jpg"] Samples.located_photo
              [photo_row (Some "inspector-1") "tower-b" "4F" "rebar spacing"
                 "tower-b/1710498600000-0.jpg" (extractExifData undated_photo)
                 None None None]
              Samples.idle)))))
           "Missing OpenWeather API key").
  - discriminate.
  - split; [| exact I]. exists None, None, None. repeat split; reflexivity.
  - reflexivity.
Defined.

(** C4, as stated: with no key in the environment the module loads, the
    calls throw when made, and the batch stops with nothing ingested. *)
Lemma missing_key_counterexample :
  load_module ∅ = Normal Samples.no_keys
  /\ getWeatherData Samples.no_keys (net := Samples.offline) 51.5 0 1710498600
     = Throw (mkError "Missing OpenWeather API key")
  /\ getLocationFromCoordinates Samples.no_keys (net := Samples.offline) 51.5 0
     = Throw (mkError "Missing Google Maps API key")
  /\ (let w' :=
        handleSubmit (host := Samples.fixed_clock) Samples.no_keys (Some "inspector-1")
          "tower-b" "4F" "rebar spacing" (fun _ => Samples.accepting 1710498600000)
          [Samples.located_photo] Samples.idle in
      photos w' = [] /\ error w' = Some "Missing OpenWeather API key").
Proof. repeat split. Qed.

(** ** Evaluation checks of the built-ins *)

Example parseFloat_values :
  parseFloat (Some "35.5") = 35.5%float
  /\ parseFloat (Some "51deg") = 51%float
  /\ parseFloat (Some "deg") = PrimFloat.nan
  /\ parseFloat None = PrimFloat.nan
  /\ parseFloat (Some ".") = PrimFloat.nan
  /\ parseFloat (Some "1e") = 1%float
  /\ parseFloat (Some "  -1.5e2x") = (-150)%float
  /\ parseFloat (Some "-0") = PrimFloat.neg_zero
  /\ parseFloat (Some ".5") = 0.5%float
  /\ parseFloat (Some "Infinity") = PrimFloat.infinity.
Proof. repeat split. Qed.

Example parseInt_values :
  parseInt (Some "2024") = 2024%float
  /\ parseInt (Some "0x1F") = 31%float
  /\ parseInt (Some "08") = 8%float
  /\ parseInt None = PrimFloat.nan
  /\ parseInt (Some "-12px") = (-12)%float.
Proof. repeat split. Qed.

Example split_values :
  split_regex dms_separator " a  b " = [""; "a"; "b"; ""]
  /\ split_regex dms_separator "" = [""]
  /\ split_char ":" "2024:03:15" = ["2024"; "03"; "15"]
  /\ split_char " " "a  b" = ["a"; ""; "b"].
Proof. repeat split. Qed.

Example Math_floor_values :
  Math_floor 1710498600.5 = 1710498600%float
  /\ Math_floor (-0.5) = (-1)%float
  /\ Math_floor 0.5 = 0%float
  /\ Math_floor (-2) = (-2)%float
  /\ Math_floor PrimFloat.nan = PrimFloat.nan.
Proof. repeat split. Qed.

Example first_match_values :
  extractLocationFromDescription "12 34f b區 C區"
  = mkLocationHint (Some "34") (Some "b") "12 34f b區 C區".
Proof. reflexivity. Qed.

Example extractDateTime_values :
  extractDateTime (host := Samples.fixed_clock)
    (extractExifData Samples.located_photo) = Some 1710498600000%float
  /\ extractDateTime (host := Samples.fixed_clock)
       (extractExifData Samples.file_bare_deg) = None
  /\ date_of_exif_text (host := Samples.fixed_clock) "x" (JStr "2024:03:15") =
     Throw (mkError "Cannot read properties of undefined (reading 'split')").
Proof. repeat split. Qed.

(** ** Further properties of the coordinate normalizer *)

Section NaNFacts.

Lemma is_NaN_eq (x : number) : is_NaN x = true -> x = PrimFloat.nan.
Proof.
  intros H. apply Prim2SF_inj. unfold Prim2SF.
  unfold is_NaN in H. rewrite H. reflexivity.
Qed.

Lemma add_nan_l (y : number) : (PrimFloat.nan + y)%float = PrimFloat.nan.
Proof.
  apply Prim2SF_inj. rewrite add_spec.
  change (Prim2SF PrimFloat.nan) with S754_nan. reflexivity.
Qed.

Lemma add_nan_r (x : number) : (x + PrimFloat.nan)%float = PrimFloat.nan.
Proof.
  apply Prim2SF_inj. rewrite add_spec.
  change (Prim2SF PrimFloat.nan) with S754_nan.
  destruct (Prim2SF x); reflexivity.
Qed.

Lemma div_nan_l (y : number) : (PrimFloat.nan / y)%float = PrimFloat.nan.
Proof.
  apply Prim2SF_inj. rewrite div_spec.
  change (Prim2SF PrimFloat.nan) with S754_nan. reflexivity.
Qed.

End NaNFacts.

(** X1.  [convertDMSToDecimal] returns [null] exactly when its argument is
    not a string: the only exception its body can raise is the TypeError of
    calling [split] on a non-string. *)
Theorem convertDMSToDecimal_null_iff_not_string (v : jsval) :
  convertDMSToDecimal v = None <-> is_string v = false.
Proof.
  unfold convertDMSToDecimal, split_receiver, bind, try_catch.
  destruct v; simpl; split; intros H; try reflexivity; discriminate H.
Qed.

(** X2.  When one of the first three tokens of a text is missing or does
    not start with a number, so that [parseFloat] gives [NaN] for it, the
    result of [convertDMSToDecimal] is [NaN], whatever the other tokens and
    the direction are. *)
Theorem convertDMSToDecimal_NaN_token (s : string) (k : nat) :
  (k < 3)%nat ->
  is_NaN (parseFloat (split_regex dms_separator s !! k)) = true ->
  convertDMSToDecimal (JStr s) = Some PrimFloat.nan.
Proof.
  intros Hk HN. apply is_NaN_eq in HN.
  unfold convertDMSToDecimal, split_receiver, bind, try_catch.
  assert (Hsum : (parseFloat (split_regex dms_separator s !! 0%nat)
                  + parseFloat (split_regex dms_separator s !! 1%nat) / 60
                  + parseFloat (split_regex dms_separator s !! 2%nat) / 3600)%float
                 = PrimFloat.nan).
  { destruct k as [|[|[|k]]]; [| | | lia]; rewrite HN.
    - now rewrite !add_nan_l.
    - now rewrite div_nan_l, add_nan_r, add_nan_l.
    - now rewrite div_nan_l, add_nan_r. }
  rewrite Hsum.
  destruct (strict_eq_str _ "S" || strict_eq_str _ "W"); reflexivity.
Qed.

Lemma convertDMSToDecimal_NaN_token_witness :
  convertDMSToDecimal (JStr "51deg 30'") = Some PrimFloat.nan.
Proof. apply (convertDMSToDecimal_NaN_token "51deg 30'" 2); [lia | reflexivity]. Defined.

Lemma split_dms_text_with (d m s : Numeral) (h sep1 sep2 sep3 : string) :
  numeral_ok d = true -> numeral_ok m = true -> numeral_ok s = true ->
  separator_run sep1 = true -> separator_run sep2 = true -> separator_run sep3 = true ->
  token dms_separator h = true ->
  split_regex dms_separator (dms_text_with d m s h sep1 sep2 sep3)
  = [numeral_text d +:+ "deg"; numeral_text m; numeral_text s; h].
Proof.
  intros Hd Hm Hs H1 H2 H3 Hh.
  apply separator_run_inv in H1 as [N1 S1], H2 as [N2 S2], H3 as [N3 S3].
  unfold split_regex, dms_text_with.
  rewrite <- (append_assoc (numeral_text d) "deg").
  rewrite split_runs_token; auto.
  2:{ unfold token. rewrite all_chars_app.
      fold (token dms_separator (numeral_text d)). now rewrite numeral_token. }
  rewrite split_runs_token; auto using numeral_token, numeral_not_empty.
  rewrite split_runs_token; auto using numeral_token, numeral_not_empty.
  rewrite split_runs_last; auto.
Qed.

Lemma split_dms_text_bare (d m s : Numeral) (sep1 sep2 : string) :
  numeral_ok d = true -> numeral_ok m = true -> numeral_ok s = true ->
  separator_run sep1 = true -> separator_run sep2 = true ->
  split_regex dms_separator (dms_text_bare d m s sep1 sep2)
  = [numeral_text d +:+ "deg"; numeral_text m; numeral_text s].
Proof.
  intros Hd Hm Hs H1 H2.
  apply separator_run_inv in H1 as [N1 S1], H2 as [N2 S2].
  unfold split_regex, dms_text_bare.
  rewrite <- (append_assoc (numeral_text d) "deg").
  rewrite split_runs_token; auto.
  2:{ unfold token. rewrite all_chars_app.
      fold (token dms_separator (numeral_text d)). now rewrite numeral_token. }
  rewrite split_runs_token; auto using numeral_token, numeral_not_empty.
  rewrite split_runs_last; auto using numeral_token.
Qed.

(** X3.  The direction is compared exactly with [S] and [W]: on a text of
    the source's form whose fourth token is any other word (a lowercase [s],
    [South], a digit), the value is left positive; it is negated for [S]
    and [W] only. *)
Theorem convertDMSToDecimal_direction_exact
  (d m s : Numeral) (h sep1 sep2 sep3 : string) :
  numeral_ok d = true -> numeral_ok m = true -> numeral_ok s = true ->
  separator_run sep1 = true -> separator_run sep2 = true -> separator_run sep3 = true ->
  token dms_separator h = true ->
  convertDMSToDecimal (JStr (dms_text_with d m s h sep1 sep2 sep3))
  = Some (if String.eqb h "S" || String.eqb h "W"
          then (- dms_magnitude d m s)%float else dms_magnitude d m s).
Proof.
  intros Hd Hm Hs H1 H2 H3 Hh.
  unfold convertDMSToDecimal, split_receiver, bind, try_catch.
  rewrite split_dms_text_with by assumption.
  change ([numeral_text d +:+ "deg"; numeral_text m; numeral_text s; h] !! 0%nat)
    with (Some (numeral_text d +:+ "deg")).
  change ([numeral_text d +:+ "deg"; numeral_text m; numeral_text s; h] !! 1%nat)
    with (Some (numeral_text m)).
  change ([numeral_text d +:+ "deg"; numeral_text m; numeral_text s; h] !! 2%nat)
    with (Some (numeral_text s)).
  change ([numeral_text d +:+ "deg"; numeral_text m; numeral_text s; h] !! 3%nat)
    with (Some h).
  rewrite (parseFloat_numeral d "deg") by (assumption || reflexivity).
  rewrite <- (append_nil_r (numeral_text m)), <- (append_nil_r (numeral_text s)).
  rewrite !parseFloat_numeral by (assumption || reflexivity).
  reflexivity.
Qed.

Lemma convertDMSToDecimal_direction_exact_witness :
  convertDMSToDecimal
    (JStr (dms_text_with (mkNumeral "33" "") (mkNumeral "51" "") (mkNumeral "54" "5")
                         "s" " " "' " " "))
  = Some (dms_magnitude (mkNumeral "33" "") (mkNumeral "51" "") (mkNumeral "54" "5")).
Proof.
  apply (convertDMSToDecimal_direction_exact
           (mkNumeral "33" "") (mkNumeral "51" "") (mkNumeral "54" "5")
           "s" " " "' " " "); reflexivity.
Defined.

(** X4.  A text of the source's form that stops after the seconds, with no
    direction at all, converts to the positive value: the missing fourth
    token is [undefined], which equals neither [S] nor [W]. *)
Theorem convertDMSToDecimal_no_direction (d m s : Numeral) (sep1 sep2 : string) :
  numeral_ok d = true -> numeral_ok m = true -> numeral_ok s = true ->
  separator_run sep1 = true -> separator_run sep2 = true ->
  convertDMSToDecimal (JStr (dms_text_bare d m s sep1 sep2))
  = Some (dms_magnitude d m s).
Proof.
  intros Hd Hm Hs H1 H2.
  unfold convertDMSToDecimal, split_receiver, bind, try_catch.
  rewrite split_dms_text_bare by assumption.
  change ([numeral_text d +:+ "deg"; numeral_text m; numeral_text s] !! 0%nat)
    with (Some (numeral_text d +:+ "deg")).
  change ([numeral_text d +:+ "deg"; numeral_text m; numeral_text s] !! 1%nat)
    with (Some (numeral_text m)).
  change ([numeral_text d +:+ "deg"; numeral_text m; numeral_text s] !! 2%nat)
    with (Some (numeral_text s)).
  change ([numeral_text d +:+ "deg"; numeral_text m; numeral_text s] !! 3%nat)
    with (@None string).
  rewrite (parseFloat_numeral d "deg") by (assumption || reflexivity).
  rewrite <- (append_nil_r (numeral_text m)), <- (append_nil_r (numeral_text s)).
  rewrite !parseFloat_numeral by (assumption || reflexivity).
  reflexivity.
Qed.

Lemma convertDMSToDecimal_no_direction_witness :
  convertDMSToDecimal
    (JStr (dms_text_bare (mkNumeral "33" "") (mkNumeral "51" "") (mkNumeral "54" "5")
                         " " "' "))
  = Some (dms_magnitude (mkNumeral "33" "") (mkNumeral "51" "") (mkNumeral "54" "5")).
Proof.
  apply (convertDMSToDecimal_no_direction
           (mkNumeral "33" "") (mkNumeral "51" "") (mkNumeral "54" "5") " " "' ");
    reflexivity.
Defined.

(** ** Properties of [extractDateTime] *)

Section DateFacts.

Lemma not_has_char_cons (d c : ascii) (s : string) :
  has_char d (String c s) = false -> Ascii.eqb c d = false /\ has_char d s = false.
Proof.
  unfold has_char. simpl. intros H. apply negb_false_iff in H.
  apply andb_prop in H as [Hc Hs]. apply negb_true_iff in Hc.
  split; [exact Hc | now rewrite Hs].
Qed.

Lemma split_char_last (d : ascii) (t : string) :
  has_char d t = false -> split_char d t = [t].
Proof.
  induction t as [|c t IH]; intros H; [reflexivity |].
  apply not_has_char_cons in H as [Hc Ht]. simpl. rewrite Hc.
  now rewrite (IH Ht).
Qed.

Lemma split_char_token (d : ascii) (t rest : string) :
  has_char d t = false ->
  split_char d (t +:+ String d rest) = t :: split_char d rest.
Proof.
  induction t as [|c t IH]; intros H.
  - rewrite append_nil_l. simpl. now rewrite Ascii.eqb_refl.
  - apply not_has_char_cons in H as [Hc Ht]. rewrite append_cons. simpl.
    rewrite Hc. now rewrite (IH Ht).
Qed.

Lemma digits_have_no (d : ascii) (s : string) :
  is_digit d = false -> all_chars is_digit s = true -> has_char d s = false.
Proof.
  intros Hd Hs. unfold has_char. apply negb_false_iff.
  revert Hs. apply all_chars_impl. intros c Hc. apply negb_true_iff.
  destruct (Ascii.eqb c d) eqn:E; [| reflexivity].
  apply Ascii.eqb_eq in E. subst c. congruence.
Qed.

Lemma digits_ok_inv (ds : string) :
  digits_ok ds = true ->
  exists c t, ds = String c t /\ is_digit c = true /\ all_chars is_digit t = true.
Proof.
  unfold digits_ok. intros H. apply andb_prop in H as [Hne Hd].
  destruct ds as [|c t]; [discriminate Hne |].
  simpl in Hd. apply andb_prop in Hd as [Hc Ht]. eauto.
Qed.

Lemma radix_prefix_digits (a : Z) (s : string) :
  all_chars is_digit s = true ->
  radix_prefix is_digit digit_value 10 (Some a) s = Some (digits_from a s).
Proof.
  revert a. induction s as [|c s IH]; intros a H; simpl in *; [reflexivity |].
  apply andb_prop in H as [Hc Hs]. rewrite Hc. now rewrite IH.
Qed.

(** [parseInt] reads a digit behind the sign and prefix tests as is. *)
Lemma parseInt_after_digit (c : ascii) (t : string) :
  is_digit c = true ->
  match t with String c2 _ => is_digit c2 = true | EmptyString => True end ->
  parseInt (Some (String c t))
  = match radix_prefix is_digit digit_value 10 None (String c t) with
    | Some z => float_of_Z z
    | None => PrimFloat.nan
    end.
Proof.
  intros Hc Ht.
  destruct c as [[] [] [] [] [] [] [] []]; try discriminate Hc; try reflexivity.
  destruct t as [|c2 t]; [reflexivity |].
  destruct c2 as [[] [] [] [] [] [] [] []]; try discriminate Ht; reflexivity.
Qed.

Lemma parseInt_digits (ds : string) :
  digits_ok ds = true -> parseInt (Some ds) = field_value ds.
Proof.
  intros H. destruct (digits_ok_inv ds H) as (c & t & -> & Hc & Ht).
  rewrite parseInt_after_digit; [| exact Hc |].
  - cbn [radix_prefix]. rewrite Hc, radix_prefix_digits by exact Ht. reflexivity.
  - destruct t as [|c2 t]; [trivial |]. simpl in Ht. now apply andb_prop in Ht as [? _].
Qed.

Lemma digits_ok_all (ds : string) : digits_ok ds = true -> all_chars is_digit ds = true.
Proof. unfold digits_ok. intros H. now apply andb_prop in H as [_ ?]. Qed.

Lemma split_three (a b c : string) :
  digits_ok a = true -> digits_ok b = true -> digits_ok c = true ->
  split_char ":" (a +:+ ":" +:+ b +:+ ":" +:+ c) = [a; b; c].
Proof.
  intros Ha Hb Hc.
  change (":" +:+ b +:+ ":" +:+ c) with (String ":" (b +:+ String ":" c)).
  rewrite split_char_token by (apply digits_have_no; auto using digits_ok_all).
  rewrite split_char_token by (apply digits_have_no; auto using digits_ok_all).
  rewrite split_char_last by (apply digits_have_no; auto using digits_ok_all).
  reflexivity.
Qed.

Context {host : DateHost}.

Lemma date_of_exif_text_fields (x y mo d h mi s : string) :
  digits_ok y = true -> digits_ok mo = true -> digits_ok d = true ->
  digits_ok h = true -> digits_ok mi = true -> digits_ok s = true ->
  date_of_exif_text x (JStr (exif_date_text y mo d h mi s))
  = Normal (Date_of_fields (field_value y) (field_value mo - 1)%float (field_value d)
                           (field_value h) (field_value mi) (field_value s)).
Proof.
  intros Hy Hmo Hd Hh Hmi Hs.
  unfold date_of_exif_text, split_receiver, bind, exif_date_text.
  rewrite <- (append_assoc y), <- (append_assoc (y +:+ ":")).
  rewrite <- (append_assoc ((y +:+ ":") +:+ mo)).
  rewrite <- (append_assoc (((y +:+ ":") +:+ mo) +:+ ":")).
  change (" " +:+ h +:+ ":" +:+ mi +:+ ":" +:+ s)
    with (String " " (h +:+ ":" +:+ mi +:+ ":" +:+ s)).
  rewrite split_char_token.
  2:{ rewrite !append_assoc. unfold has_char. apply negb_false_iff.
      rewrite !all_chars_app.
      apply digits_ok_all in Hy, Hmo, Hd.
      apply (digits_have_no " ") in Hy, Hmo, Hd; try reflexivity.
      unfold has_char in Hy, Hmo, Hd. apply negb_false_iff in Hy, Hmo, Hd.
      now rewrite Hy, Hmo, Hd. }
  rewrite split_char_last.
  2:{ unfold has_char. apply negb_false_iff. rewrite !all_chars_app.
      apply digits_ok_all in Hh, Hmi, Hs.
      apply (digits_have_no " ") in Hh, Hmi, Hs; try reflexivity.
      unfold has_char in Hh, Hmi, Hs. apply negb_false_iff in Hh, Hmi, Hs.
      now rewrite Hh, Hmi, Hs. }
  cbn [lookup list_lookup from_option].
  rewrite !append_assoc, !split_three by assumption.
  cbn [lookup list_lookup].
  now rewrite !parseInt_digits by assumption.
Qed.

End DateFacts.

Section DateClaims.
Context {host : DateHost}.

Lemma exif_date_text_truthy (y mo d h mi s : string) :
  digits_ok y = true -> truthy (JStr (exif_date_text y mo d h mi s)) = true.
Proof.
  intros Hy. destruct (digits_ok_inv y Hy) as (c & t & -> & _ & _). reflexivity.
Qed.

(** X5.  When [dateTimeOriginal] is a text [YYYY:MM:DD HH:MM:SS] of six
    fields of digits, [extractDateTime] builds the date from the six
    numbers, the month lowered by one, and hands them to [Date] as they
    are: no range is checked and no time zone is applied here. *)
Theorem extractDateTime_of_fields (e : ExifData) (y mo d h mi s : string) :
  digits_ok y = true -> digits_ok mo = true -> digits_ok d = true ->
  digits_ok h = true -> digits_ok mi = true -> digits_ok s = true ->
  dateTimeOriginal e = Some (JStr (exif_date_text y mo d h mi s)) ->
  extractDateTime (Some e)
  = Some (Date_of_fields (field_value y) (field_value mo - 1)%float (field_value d)
                         (field_value h) (field_value mi) (field_value s)).
Proof.
  intros Hy Hmo Hd Hh Hmi Hs He.
  unfold extractDateTime, try_catch. rewrite He.
  cbn [truthy_field from_option id]. rewrite exif_date_text_truthy by exact Hy.
  now rewrite date_of_exif_text_fields by assumption.
Qed.

Lemma date_of_exif_text_name (x x' : string) (v : jsval) :
  try_catch (bind (date_of_exif_text x v) (fun d => Normal (Some d))) (fun _ => None)
  = try_catch (bind (date_of_exif_text x' v) (fun d => Normal (Some d))) (fun _ => None).
Proof.
  unfold date_of_exif_text. destruct v; reflexivity.
Qed.

(** X6.  [extractDateTime] depends on the object only through the first
    truthy one of [dateTimeOriginal] and [dateTime]: two objects that agree
    on it give the same date.  So [dateTime] is read exactly as
    [dateTimeOriginal] would be, and it is not consulted at all once
    [dateTimeOriginal] is truthy, even when that one fails to parse. *)
Theorem extractDateTime_date_source (e e' : ExifData) :
  date_source e = date_source e' ->
  extractDateTime (Some e) = extractDateTime (Some e').
Proof.
  assert (H : forall a : ExifData,
             extractDateTime (Some a)
             = match date_source a with
               | Some v => try_catch (bind (date_of_exif_text "" v)
                                           (fun d => Normal (Some d))) (fun _ => None)
               | None => None
               end).
  { intros a. unfold extractDateTime, date_source.
    destruct (dateTimeOriginal a) as [v|], (dateTime a) as [v'|];
      cbn [truthy_field from_option id];
      try destruct (truthy v); try destruct (truthy v');
      try reflexivity; apply date_of_exif_text_name. }
  intros E. now rewrite !H, E.
Qed.

(** X7.  When [dateTimeOriginal] is truthy but is not a text with a space
    in it (a date with no time, a number, an object), [extractDateTime]
    returns [null]: the missing time part, or the missing [split], raises a
    TypeError that the function catches, and [dateTime] is not tried. *)
Theorem extractDateTime_without_time (e : ExifData) (v : jsval) :
  dateTimeOriginal e = Some v ->
  no_date_and_time v = true ->
  extractDateTime (Some e) = None.
Proof.
  intros He Hv. unfold no_date_and_time in Hv. apply andb_prop in Hv as [T Hv].
  unfold extractDateTime, try_catch. rewrite He. cbn [truthy_field from_option id]. rewrite T.
  unfold date_of_exif_text. destruct v as [| | b | x | s |]; try reflexivity.
  apply negb_true_iff in Hv.
  unfold split_receiver at 1. cbn [bind].
  now rewrite (split_char_last " " s Hv).
Qed.

End DateClaims.

Lemma extractDateTime_date_source_witness :
  extractDateTime (host := Samples.fixed_clock)
    (Some (mkExifData (Some (JStr "2024:03:15")) (Some (JStr "2024:03:15 10:30:00"))
                      None None None None))
  = extractDateTime (host := Samples.fixed_clock)
      (Some (mkExifData (Some (JStr "2024:03:15")) None None None None None)).
Proof. apply (extractDateTime_date_source (host := Samples.fixed_clock)). reflexivity. Defined.

Lemma extractDateTime_without_time_witness :
  extractDateTime (host := Samples.fixed_clock)
    (Some (mkExifData (Some (JStr "2024:03:15")) (Some (JStr "2024:03:15 10:30:00"))
                      None None None None))
  = None.
Proof.
  apply (extractDateTime_without_time (host := Samples.fixed_clock)
           (mkExifData (Some (JStr "2024:03:15")) (Some (JStr "2024:03:15 10:30:00"))
                       None None None None)
           (JStr "2024:03:15")); reflexivity.
Defined.

Lemma extractDateTime_of_fields_witness :
  extractDateTime (host := Samples.fixed_clock)
    (Some (mkExifData (Some (JStr (exif_date_text "2024" "03" "15" "10" "30" "00")))
                      None None None None None))
  = Some (Date_of_fields (DateHost := Samples.fixed_clock)
            (field_value "2024") (field_value "03" - 1)%float (field_value "15")
            (field_value "10") (field_value "30") (field_value "00")).
Proof.
  apply (extractDateTime_of_fields (host := Samples.fixed_clock)
           (mkExifData (Some (JStr (exif_date_text "2024" "03" "15" "10" "30" "00")))
                       None None None None None)
           "2024" "03" "15" "10" "30" "00"); reflexivity.
Defined.

(** ** Further properties of [extractExifData] *)

(** X8.  Of the two date properties, [extractExifData] sets at most one:
    [dateTimeOriginal] whenever the tag [DateTimeOriginal] exists, and
    [dateTime] only when it does not and the tag [DateTime] exists; each is
    the tag's description, unchanged. *)
Theorem extractExifData_one_date (file : File) (e : ExifData) :
  extractExifData file = Some e ->
  exists tags,
    exif_tags file = Normal tags
    /\ dateTimeOriginal e = description <$> tags !! "DateTimeOriginal"
    /\ dateTime e = match tags !! "DateTimeOriginal" with
                    | Some _ => None
                    | None => description <$> tags !! "DateTime"
                    end
    /\ (dateTimeOriginal e = None \/ dateTime e = None).
Proof.
  unfold extractExifData. intros He.
  destruct (exif_tags file) as [tags | err]; [| discriminate He].
  exists tags. unfold bind, try_catch in He.
  destruct (tags !! "DateTimeOriginal"), (tags !! "DateTime");
    injection He as <-; cbn; auto.
Qed.

Lemma extractExifData_one_date_witness :
  exists tags,
    exif_tags Samples.located_photo = Normal tags
    /\ Some (JStr "2024:03:15 10:30:00") = description <$> tags !! "DateTimeOriginal"
    /\ None = match tags !! "DateTimeOriginal" with
              | Some _ => None
              | None => description <$> tags !! "DateTime"
              end
    /\ (Some (JStr "2024:03:15 10:30:00") = None \/ @None jsval = None).
Proof.
  exact (extractExifData_one_date Samples.located_photo
           (mkExifData (Some (JStr "2024:03:15 10:30:00")) None
              (Some (mkGPS (JStr "51deg 30' 35.5 N") (JStr "0deg 7' 5.5 W")
                           (Some (convertDMSToDecimal (JStr "51deg 30' 35.5 N")))
                           (Some (convertDMSToDecimal (JStr "0deg 7' 5.5 W")))))
              None None None)
           eq_refl).
Defined.

(** X9.  The position and the size are all-or-nothing pairs: the object has
    a [gps] property exactly when both GPS tags exist, so a latitude with no
    longitude is dropped, and [dimensions] exactly when both size tags
    exist, holding their values; [make] and [model] each mirror one tag. *)
Theorem extractExifData_pairs (file : File) (tags : gmap string Tag) (e : ExifData) :
  exif_tags file = Normal tags ->
  extractExifData file = Some e ->
  (gps e = None <-> tags !! "GPSLatitude" = None \/ tags !! "GPSLongitude" = None)
  /\ dimensions e
     = match tags !! "ImageWidth", tags !! "ImageHeight" with
       | Some w, Some h => Some (mkDimensions (value w) (value h))
       | _, _ => None
       end
  /\ make e = description <$> tags !! "Make"
  /\ model e = description <$> tags !! "Model".
Proof.
  unfold extractExifData. intros -> He. unfold bind, try_catch in He.
  destruct (tags !! "DateTimeOriginal"), (tags !! "DateTime");
    injection He as <-; cbn [gps dimensions make model];
    (split; [| auto]);
    destruct (tags !! "GPSLatitude") as [tlat|], (tags !! "GPSLongitude") as [tlon|];
    try (split; [discriminate | intros [H | H]; discriminate H]);
    try (split; auto; fail);
    destruct (is_string (description tlat) && includes_deg (description tlat));
    (split; [discriminate | intros [H | H]; discriminate H]).
Qed.

Lemma extractExifData_pairs_witness :
  (@None GPS = None <->
   (<["GPSLatitude" := Samples.text_tag "51deg 30' 35.5 N"]> (∅ : gmap string Tag))
     !! "GPSLatitude" = None
   \/ (<["GPSLatitude" := Samples.text_tag "51deg 30' 35.5 N"]> (∅ : gmap string Tag))
        !! "GPSLongitude" = None)
  /\ @None Dimensions
     = match (<["GPSLatitude" := Samples.text_tag "51deg 30' 35.5 N"]> (∅ : gmap string Tag))
               !! "ImageWidth",
             (<["GPSLatitude" := Samples.text_tag "51deg 30' 35.5 N"]> (∅ : gmap string Tag))
               !! "ImageHeight" with
       | Some w, Some h => Some (mkDimensions (value w) (value h))
       | _, _ => None
       end
  /\ @None jsval
     = description <$> (<["GPSLatitude" := Samples.text_tag "51deg 30' 35.5 N"]>
                          (∅ : gmap string Tag)) !! "Make"
  /\ @None jsval
     = description <$> (<["GPSLatitude" := Samples.text_tag "51deg 30' 35.5 N"]>
                          (∅ : gmap string Tag)) !! "Model".
Proof.
  exact (extractExifData_pairs
           (mkFile "lone.jpg"
              (Normal (<["GPSLatitude" := Samples.text_tag "51deg 30' 35.5 N"]> ∅)))
           (<["GPSLatitude" := Samples.text_tag "51deg 30' 35.5 N"]> ∅)
           (mkExifData None None None None None None) eq_refl eq_refl).
Defined.

(** ** From the tags to the coordinates *)

Section PositionFacts.

Lemma includes_prefix (n s : string) : String.prefix n s = true -> includes n s = true.
Proof. intros H. destruct s; simpl in *; now rewrite H. Qed.

Lemma includes_app (n a b : string) : includes n (a +:+ n +:+ b) = true.
Proof.
  induction a as [|c a IH].
  - rewrite append_nil_l. apply includes_prefix, prefix_spec. now exists b.
  - rewrite append_cons. simpl. rewrite IH. apply orb_true_r.
Qed.

Lemma dms_string_includes_deg (x : Dms) : includes "deg" (dms_string x) = true.
Proof. unfold dms_string, dms_text. apply includes_app. Qed.

Lemma convertDMSToDecimal_dms (x : Dms) :
  dms_ok x = true -> convertDMSToDecimal (JStr (dms_string x)) = Some (dms_number x).
Proof.
  unfold dms_ok. intros H.
  apply andb_prop in H as [H H3]. apply andb_prop in H as [H H2].
  apply andb_prop in H as [H H1]. apply andb_prop in H as [H Hs].
  apply andb_prop in H as [Hd Hm].
  unfold convertDMSToDecimal, split_receiver, bind, try_catch, dms_string, dms_number.
  rewrite split_dms_text by assumption.
  cbn [lookup list_lookup].
  rewrite (parseFloat_numeral (dms_degrees x) "deg") by (assumption || reflexivity).
  rewrite <- (append_nil_r (numeral_text (dms_minutes x))).
  rewrite <- (append_nil_r (numeral_text (dms_seconds x))).
  rewrite !parseFloat_numeral by (assumption || reflexivity).
  unfold dms_value. destruct (dms_hemisphere x); reflexivity.
Qed.

Lemma coordinates_without_deg (file : File) :
  latitude_without_deg file -> coordinates_of (extractExifData file) = None.
Proof.
  intros H. unfold coordinates_of, extractExifData.
  destruct (exif_tags file) as [tags | err] eqn:Hf; [| reflexivity].
  unfold bind, try_catch at 1.
  destruct (tags !! "GPSLatitude") as [tlat|] eqn:Hlat.
  - rewrite (H tags tlat Hf Hlat), andb_false_r.
    destruct (tags !! "DateTimeOriginal"), (tags !! "DateTime"),
      (tags !! "GPSLongitude"); reflexivity.
  - destruct (tags !! "DateTimeOriginal"), (tags !! "DateTime"); reflexivity.
Qed.

End PositionFacts.

(** X10.  A file whose two GPS descriptions are texts of the source's form
    and convert to non-zero numbers yields exactly those two numbers as its
    coordinates: what [extractExifData] stores, [extractGPSCoordinates]
    hands on unchanged. *)
Theorem coordinates_of_dms_tags
  (file : File) (tags : gmap string Tag) (tlat tlon : Tag) (la lo : Dms) :
  exif_tags file = Normal tags ->
  tags !! "GPSLatitude" = Some tlat ->
  tags !! "GPSLongitude" = Some tlon ->
  description tlat = JStr (dms_string la) -> dms_ok la = true ->
  description tlon = JStr (dms_string lo) -> dms_ok lo = true ->
  truthy_number (dms_number la) = true ->
  truthy_number (dms_number lo) = true ->
  coordinates_of (extractExifData file)
  = Some (mkCoordinates (dms_number la) (dms_number lo)).
Proof.
  intros Hf Hlat Hlon Dla Ola Dlo Olo Tla Tlo.
  unfold coordinates_of, extractExifData. rewrite Hf. unfold bind, try_catch at 1.
  rewrite Hlat, Hlon, Dla, Dlo. cbn [is_string includes_deg andb].
  rewrite dms_string_includes_deg, !convertDMSToDecimal_dms by assumption.
  destruct (tags !! "DateTimeOriginal"), (tags !! "DateTime");
    unfold extractGPSCoordinates, try_catch;
    cbn [gps latitudeDecimal longitudeDecimal truthy_decimal held_number];
    now rewrite Tla, Tlo.
Qed.

Lemma coordinates_of_dms_tags_witness :
  coordinates_of (extractExifData MoreSamples.london_photo)
  = Some (mkCoordinates (dms_number MoreSamples.london_latitude)
                        (dms_number MoreSamples.london_longitude)).
Proof.
  apply (coordinates_of_dms_tags MoreSamples.london_photo
           (<["GPSLatitude" := Samples.text_tag (dms_string MoreSamples.london_latitude)]>
            (<["GPSLongitude" := Samples.text_tag (dms_string MoreSamples.london_longitude)]> ∅))
           (Samples.text_tag (dms_string MoreSamples.london_latitude))
           (Samples.text_tag (dms_string MoreSamples.london_longitude)));
    reflexivity.
Defined.

(** ** The two lookups *)

(** X11.  [getWeatherData] passes the provider's payload through: it
    returns a payload exactly when the key is set and the request resolves,
    and then the payload is the response's data, untouched. *)
Theorem getWeatherData_some_iff
  (cfg : Config) (net : Network) (la lo t : number) (p : payload) :
  getWeatherData cfg (net := net) la lo t = Normal (Some p)
  <-> key_missing (OPENWEATHER_API_KEY cfg) = false
      /\ get_timemachine (Network := net) la lo t (default "" (OPENWEATHER_API_KEY cfg))
         = Normal p.
Proof.
  unfold getWeatherData.
  destruct (key_missing (OPENWEATHER_API_KEY cfg)).
  - split; [discriminate | intros [H _]; discriminate H].
  - destruct (get_timemachine la lo t (default "" (OPENWEATHER_API_KEY cfg))) as [d | e];
      cbn [bind try_catch]; split.
    + intros H. injection H as <-. auto.
    + intros [_ H]. now injection H as <-.
    + discriminate.
    + intros [_ H]. discriminate H.
Qed.

(** X12.  [getLocationFromCoordinates] returns a result exactly when the
    key is set, the request resolves, the body's status is [OK] and it has
    at least one result; the result returned is the first one.  A resolved
    request with any other status gives [null], like a rejected one. *)
Theorem getLocationFromCoordinates_some_iff
  (cfg : Config) (net : Network) (la lo : number) (p : payload) :
  getLocationFromCoordinates cfg (net := net) la lo = Normal (Some p)
  <-> key_missing (GOOGLE_MAPS_API_KEY cfg) = false
      /\ exists rest,
           get_geocode (Network := net) la lo (default "" (GOOGLE_MAPS_API_KEY cfg))
           = Normal (mkGeocodeBody "OK" (p :: rest)).
Proof.
  unfold getLocationFromCoordinates.
  destruct (key_missing (GOOGLE_MAPS_API_KEY cfg)).
  - split; [discriminate | intros [H _]; discriminate H].
  - destruct (get_geocode la lo (default "" (GOOGLE_MAPS_API_KEY cfg)))
      as [[st rs] | e]; cbn [bind try_catch status results]; split.
    + destruct (String.eqb st "OK") eqn:Est; [| discriminate].
      apply String.eqb_eq in Est. subst st.
      destruct rs as [|r rest]; [discriminate |]. cbn.
      intros H. injection H as <-. split; [reflexivity | now exists rest].
    + intros [_ [rest H]]. injection H as -> ->. reflexivity.
    + discriminate.
    + intros [_ [rest H]]. discriminate H.
Qed.

(** ** Further properties of the ingestion loop *)

Section MorePipeline.
Context {host : DateHost} (cfg : Config).
Context (user : option string) (projectId locationDescription description : string).

Local Abbreviation process_file := (process_file cfg user projectId locationDescription description).
Local Abbreviation process_from := (process_from cfg user projectId locationDescription description).
Local Abbreviation handleSubmit := (handleSubmit cfg user projectId locationDescription description).
Local Abbreviation commits := (commits cfg user projectId locationDescription description).
Local Abbreviation all_commit := (all_commit cfg user projectId locationDescription description).

(** X13.  A file whose latitude description does not contain [deg], as when
    the decoder gives the position as numbers, is ingested without any
    lookup: whatever the keys and the network, once its upload and insert
    are accepted its row is appended with [weather_data] and [geo_data]
    both [null]. *)
Theorem file_without_deg_needs_no_lookup
  (env : Env) (total i : nat) (file : File) (w : World) :
  latitude_without_deg file ->
  (exists t, taken_at_of (date_of (extractExifData file)) = Normal t) ->
  upload_error env (file_path projectId env i file) file = None ->
  (forall row, insert_error env row = None) ->
  exists row w',
    process_file env total i file w = (Normal tt, w')
    /\ photos w' = (photos w ++ [row])%list
    /\ weather_data row = None /\ geo_data row = None.
Proof.
  intros Hdeg [t Ht] Hu Hi.
  pose (row := row_of user projectId locationDescription description env i file None None t).
  assert (Hc : commits env i file row).
  { exists None, None, t. unfold exif_of, path_of.
    rewrite (coordinates_without_deg file Hdeg). repeat split; auto. }
  exists row. eexists.
  split; [exact (process_file_commits cfg user projectId locationDescription description
                   env total i file row w Hc) |].
  repeat split.
Qed.

(** With no file selected, or with files and no project, [handleSubmit]
    only sets the error message of the failing test, the one about the files
    first: nothing is uploaded or inserted, the loading flag, the progress,
    the status and the route stay as they were. *)
Theorem handleSubmit_guards (envs : nat -> Env) (files : list File) (w : World) :
  files = [] \/ projectId = "" ->
  handleSubmit envs files w
  = mkWorld (Some (match files with
                   | [] => "Please select at least one photo to upload"
                   | _ :: _ => "Please select a project"
                   end))
            (isLoading w) (uploadProgress w) (uploadStatus w) (route w)
            (bucket w) (photos w).
Proof.
  intros [-> | ->]; unfold handleSubmit, Upload.handleSubmit; [reflexivity |].
  destruct files; reflexivity.
Qed.

Lemma handleSubmit_start (envs : nat -> Env) (files : list File) (w : World) :
  projectId <> "" -> files <> [] ->
  handleSubmit envs files w
  = match process_from envs (length files) 0 files
            (mkWorld None true 0%float "Preparing files..." (route w) (bucket w) (photos w))
    with
    | (Normal _, w1) =>
        mkWorld (error w1) (isLoading w1) (uploadProgress w1) "Upload complete!"
                (Some ("/projects/" +:+ projectId)) (bucket w1) (photos w1)
    | (Throw err, w1) =>
        mkWorld (Some (if String.eqb (message err) ""
                       then "An error occurred during upload" else message err))
                false (uploadProgress w1) (uploadStatus w1) (route w1)
                (bucket w1) (photos w1)
    end.
Proof.
  intros Hproj Hfiles. unfold handleSubmit, Upload.handleSubmit.
  apply String.eqb_neq in Hproj. rewrite Hproj.
  destruct files as [|f0 rest]; [congruence |].
  unfold mbind at 1 2 3 4. unfold setIsLoading, setError, setUploadProgress.
  unfold setUploadStatus at 1. cbv beta iota.
  cbn [error isLoading uploadProgress uploadStatus route bucket photos].
  unfold mbind at 1.
  destruct (Upload.process_from _ _ _ _ _ _ _ _ _ _) as [[[] | e] w1]; reflexivity.
Qed.

(** X14.  When every file of a batch commits, [handleSubmit] leaves one row
    and one stored object per file, in the order of the files, clears the
    error, says [Upload complete!] and sends the router to the project's
    page; the loading flag stays set. *)
Theorem handleSubmit_all_commit
  (envs : nat -> Env) (files : list File) (rows : list PhotoRecord) (w : World) :
  projectId <> "" -> files <> [] ->
  all_commit envs 0 files rows ->
  let w' := handleSubmit envs files w in
  photos w' = (photos w ++ rows)%list
  /\ List.map fst (bucket w') = (List.map fst (bucket w) ++ List.map storage_path rows)%list
  /\ length rows = length files
  /\ error w' = None
  /\ uploadStatus w' = "Upload complete!"
  /\ route w' = Some ("/projects/" +:+ projectId)
  /\ isLoading w' = true.
Proof.
  intros Hproj Hfiles Hall w'. subst w'.
  rewrite handleSubmit_start by assumption.
  destruct (process_from_commits cfg user projectId locationDescription description
              envs (length files) files 0%nat rows
              (mkWorld None true 0%float "Preparing files..." (route w) (bucket w) (photos w))
              Hall) as (w1 & -> & Hp & Hb & He & Hl & Hr).
  cbn [photos bucket error isLoading route uploadStatus] in *.
  repeat split; auto.
  clear -Hall. revert rows Hall. generalize 0%nat.
  induction files as [|f files IH]; intros i [|r rows] H; cbn in H; try contradiction;
    [reflexivity |].
  destruct H as [_ H]. cbn. f_equal. exact (IH _ _ H).
Qed.

(** X16.  When the capture time read from the metadata is an invalid date,
    the file is uploaded and then [toISOString] throws while the row is
    built: the batch stops with [Invalid time value], the object stays in
    the bucket and no row is inserted for it. *)
Theorem invalid_date_leaves_object
  (env : Env) (total i : nat) (file : File) (d : Date)
  (wd gd : option payload) (w : World) :
  date_of (extractExifData file) = Some d ->
  is_NaN d = true ->
  enrich cfg env (Some d) (coordinates_of (extractExifData file)) = Normal (wd, gd) ->
  upload_error env (file_path projectId env i file) file = None ->
  process_file env total i file w
  = (Throw (mkError "Invalid time value"),
     mkWorld (error w) (isLoading w) (uploadProgress w) (uploading_status total i)
             (route w) (bucket w ++ [(file_path projectId env i file, file)])
             (photos w)).
Proof.
  intros Hd HN He Hu.
  unfold process_file, Upload.process_file, mbind, lift, setUploadStatus, storage_upload.
  rewrite Hd, He. cbv beta iota. rewrite Hu. cbv beta iota.
  unfold taken_at_of, toISOString. rewrite HN. reflexivity.
Qed.

(** X17.  A photo with a position but no capture time is never sent to the
    weather provider: with the Google Maps key set, and whether or not the
    OpenWeather key is, its row is inserted with [weather_data] [null] and
    with the geocoder's answer as [geo_data]. *)
Theorem undated_file_skips_weather
  (env : Env) (total i : nat) (file : File) (c : Coordinates) (w : World) :
  coordinates_of (extractExifData file) = Some c ->
  date_of (extractExifData file) = None ->
  key_missing (GOOGLE_MAPS_API_KEY cfg) = false ->
  upload_error env (file_path projectId env i file) file = None ->
  (forall row, insert_error env row = None) ->
  exists row gd w',
    getLocationFromCoordinates cfg (net := network env) (lat c) (lon c) = Normal gd
    /\ process_file env total i file w = (Normal tt, w')
    /\ photos w' = (photos w ++ [row])%list
    /\ weather_data row = None /\ geo_data row = gd /\ taken_at row = None.
Proof.
  intros Hc Hd Hk Hu Hi.
  destruct (getLocationFromCoordinates_with_key cfg (network env) (lat c) (lon c) Hk)
    as (gd & Hgd & _).
  pose (row := row_of user projectId locationDescription description env i file None gd None).
  assert (Hcm : commits env i file row).
  { exists None, gd, None. unfold exif_of, path_of. rewrite Hc, Hd.
    unfold enrich. rewrite Hgd. repeat split; auto. }
  exists row, gd. eexists. split; [exact Hgd |].
  split; [exact (process_file_commits cfg user projectId locationDescription description
                   env total i file row w Hcm) |].
  repeat split.
Qed.

End MorePipeline.

Lemma file_without_deg_needs_no_lookup_witness :
  exists row w',
    process_file (host := Samples.fixed_clock) Samples.no_keys (Some "inspector-1")
      "tower-b" "4F" "rebar spacing" (Samples.accepting 1710498600000) 1 0
      MoreSamples.numeric_position Samples.idle = (Normal tt, w')
    /\ photos w' = (photos Samples.idle ++ [row])%list
    /\ weather_data row = None /\ geo_data row = None.
Proof.
  apply (file_without_deg_needs_no_lookup (host := Samples.fixed_clock) Samples.no_keys
           (Some "inspector-1") "tower-b" "4F" "rebar spacing"
           (Samples.accepting 1710498600000) 1 0 MoreSamples.numeric_position Samples.idle).
  - intros tags tlat Hf Hl. injection Hf as <-.
    vm_compute in Hl. injection Hl as <-. reflexivity.
  - exists None. reflexivity.
  - reflexivity.
  - reflexivity.
Defined.

Lemma handleSubmit_guards_witness :
  handleSubmit (host := Samples.fixed_clock) Samples.keys (Some "inspector-1")
    "" "4F" "rebar spacing" (fun _ => Samples.accepting 1710498600000)
    [Samples.located_photo] Samples.idle
  = mkWorld (Some "Please select a project") false 0%float "" None [] [].
Proof.
  apply (handleSubmit_guards (host := Samples.fixed_clock) Samples.keys (Some "inspector-1")
           "" "4F" "rebar spacing" (fun _ => Samples.accepting 1710498600000)
           [Samples.located_photo] Samples.idle).
  now right.
Defined.

Lemma handleSubmit_all_commit_witness :
  let w' :=
    handleSubmit (host := Samples.fixed_clock) Samples.keys (Some "inspector-1")
      "tower-b" "4F" "rebar spacing" (fun i => Samples.accepting (1710498600000 + Z.of_nat i))
      [Samples.bare_photo "a.jpg"; Samples.bare_photo "b.png"] Samples.idle in
  photos w'
  = ([] ++ [photo_row (Some "inspector-1") "tower-b" "4F" "rebar spacing"
              "tower-b/1710498600000-0.jpg" None None None None;
            photo_row (Some "inspector-1") "tower-b" "4F" "rebar spacing"
              "tower-b/1710498600001-1.png" None None None None])%list
  /\ List.map fst (bucket w')
     = ([] ++ ["tower-b/1710498600000-0.jpg"; "tower-b/1710498600001-1.png"])%list
  /\ 2%nat = 2%nat
  /\ error w' = None
  /\ uploadStatus w' = "Upload complete!"
  /\ route w' = Some "/projects/tower-b"
  /\ isLoading w' = true.
Proof.
  apply (handleSubmit_all_commit (host := Samples.fixed_clock) Samples.keys
           (Some "inspector-1") "tower-b" "4F" "rebar spacing"
           (fun i => Samples.accepting (1710498600000 + Z.of_nat i))
           [Samples.bare_photo "a.jpg"; Samples.bare_photo "b.png"]
           [photo_row (Some "inspector-1") "tower-b" "4F" "rebar spacing"
              "tower-b/1710498600000-0.jpg" None None None None;
            photo_row (Some "inspector-1") "tower-b" "4F" "rebar spacing"
              "tower-b/1710498600001-1.png" None None None None]
           Samples.idle).
  - discriminate.
  - discriminate.
  - split; [| split; [| exact I]]; exists None, None, None; repeat split; reflexivity.
Defined.

Lemma invalid_date_leaves_object_witness :
  process_file (host := strict_clock) Samples.keys (Some "inspector-1")
    "tower-b" "4F" "rebar spacing" (Samples.accepting 1710498600000) 1 0
    photo_without_seconds Samples.idle
  = (Throw (mkError "Invalid time value"),
     mkWorld None false 0%float (uploading_status 1 0) None
             ([] ++ [(file_path "tower-b" (Samples.accepting 1710498600000) 0
                                photo_without_seconds, photo_without_seconds)])
             []).
Proof.
  apply (invalid_date_leaves_object (host := strict_clock) Samples.keys (Some "inspector-1")
           "tower-b" "4F" "rebar spacing" (Samples.accepting 1710498600000) 1 0
           photo_without_seconds PrimFloat.nan None None Samples.idle); reflexivity.
Defined.

Lemma undated_file_skips_weather_witness :
  exists row gd w',
    getLocationFromCoordinates (mkConfig None (Some "gm-key")) (net := online)
      (lat undated_position)
      (lon undated_position) = Normal gd
    /\ process_file (host := Samples.fixed_clock) (mkConfig None (Some "gm-key"))
         (Some "inspector-1") "tower-b" "4F" "rebar spacing"
         (online_accepting 1710498600000) 1 0 undated_photo Samples.idle = (Normal tt, w')
    /\ photos w' = (photos Samples.idle ++ [row])%list
    /\ weather_data row = None /\ geo_data row = gd /\ taken_at row = None.
Proof.
  apply (undated_file_skips_weather (host := Samples.fixed_clock)
           (mkConfig None (Some "gm-key")) (Some "inspector-1") "tower-b" "4F"
           "rebar spacing" (online_accepting 1710498600000) 1 0 undated_photo
           undated_position Samples.idle);
    reflexivity.
Defined.

(** ** The storage path *)

Section PathFacts.

Lemma split_char_two (d : ascii) (base ext : string) :
  has_char d ext = false ->
  exists t ts,
    split_char d (base +:+ String d ext) = t :: ts
    /\ ts <> [] /\ List.last ts "" = ext.
Proof.
  intros Hext. induction base as [|c base IH].
  - rewrite append_nil_l. simpl. rewrite Ascii.eqb_refl.
    rewrite (split_char_last d ext Hext). exists "", [ext]. repeat split. discriminate.
  - destruct IH as (t & ts & E & Hne & Hl). rewrite append_cons. simpl. rewrite E.
    destruct (Ascii.eqb c d).
    + exists "", (t :: ts). repeat split; [discriminate |].
      destruct ts; [congruence | exact Hl].
    + exists (String c t), ts. auto.
Qed.

Lemma last_split_char (d : ascii) (base ext : string) :
  has_char d ext = false ->
  List.last (split_char d (base +:+ String d ext)) "" = ext.
Proof.
  intros H. destruct (split_char_two d base ext H) as (t & ts & -> & Hne & Hl).
  destruct ts; [congruence | exact Hl].
Qed.

Lemma pretty_N_char_digit (x : N) : is_digit (pretty_N_char x) = true.
Proof.
  unfold pretty_N_char.
  repeat match goal with |- context [match ?y with _ => _ end] => destruct y end;
    reflexivity.
Qed.

Lemma pretty_N_go_digits (x : N) :
  forall s, all_chars is_digit s = true -> all_chars is_digit (pretty_N_go x s) = true.
Proof.
  induction (N.lt_wf_0 x) as [x _ IH]. intros s Hs.
  destruct (N.eq_dec x 0%N) as [-> | Hx].
  - now rewrite pretty_N_go_0.
  - rewrite pretty_N_go_step by lia. apply IH.
    + apply N.div_lt; lia.
    + simpl. now rewrite pretty_N_char_digit, Hs.
Qed.

Lemma pretty_N_digits (x : N) : all_chars is_digit (pretty x) = true.
Proof.
  unfold pretty, pretty_N. destruct (decide (x = 0%N)); [reflexivity |].
  now apply pretty_N_go_digits.
Qed.

Lemma pretty_nat_digits (n : nat) : all_chars is_digit (pretty n) = true.
Proof. apply pretty_N_digits. Qed.

Lemma pretty_Z_digits (z : Z) : (0 <= z)%Z -> all_chars is_digit (pretty z) = true.
Proof.
  destruct z as [|p|p]; intros H; [reflexivity | apply pretty_N_digits | lia].
Qed.

Lemma append_inv_head (p a b : string) : p +:+ a = p +:+ b -> a = b.
Proof.
  induction p as [|c p IH]; [trivial |].
  rewrite !append_cons. intros H. injection H as H. auto.
Qed.

(** Two texts that start with digits and go on with the same non-digit
    have the same digits and the same rest. *)
Lemma digits_then_inj (c : ascii) (a a' r r' : string) :
  is_digit c = false ->
  all_chars is_digit a = true -> all_chars is_digit a' = true ->
  a +:+ String c r = a' +:+ String c r' -> a = a' /\ r = r'.
Proof.
  intros Hc Ha Ha' E.
  assert (H : span_digits (a +:+ String c r) = span_digits (a' +:+ String c r'))
    by now rewrite E.
  rewrite !span_digits_app in H by (simpl; auto).
  injection H as -> ->. now split.
Qed.

End PathFacts.

(** X18.  The extension of a stored object is the text after the last point
    of the file's name, and the whole name when it has no point: the path is
    the project, a slash, the clock, a dash, the index, a point and that
    text. *)
Theorem file_path_extension
  (projectId : string) (env : Env) (i : nat) (file : File) (base ext : string) :
  has_char "." ext = false ->
  name file = base +:+ "." +:+ ext \/ name file = ext ->
  file_path projectId env i file
  = projectId +:+ "/" +:+ pretty (now env) +:+ "-" +:+ pretty i +:+ "." +:+ ext.
Proof.
  intros Hext Hname. unfold file_path.
  replace (List.last (split_char "." (name file)) "") with ext; [reflexivity |].
  destruct Hname as [-> | ->].
  - change ("." +:+ ext) with (String "." ext). now rewrite last_split_char.
  - now rewrite split_char_last.
Qed.

Lemma file_path_extension_witness :
  file_path "tower-b" (Samples.accepting 1710498600000) 3
            (Samples.bare_photo "site.v2.final.JPG")
  = "tower-b" +:+ "/" +:+ pretty 1710498600000%Z +:+ "-" +:+ pretty 3%nat +:+ "." +:+ "JPG".
Proof.
  apply (file_path_extension "tower-b" (Samples.accepting 1710498600000) 3
           (Samples.bare_photo "site.v2.final.JPG") "site.v2.final" "JPG");
    [reflexivity | now left].
Defined.

(** X19.  Within a project, the path tells the clock and the index: two
    files processed at different indexes, or at different times, never get
    the same path, whatever their names. *)
Theorem file_path_distinct
  (projectId : string) (e1 e2 : Env) (i j : nat) (f1 f2 : File) :
  (0 <= now e1)%Z -> (0 <= now e2)%Z ->
  i <> j \/ now e1 <> now e2 ->
  file_path projectId e1 i f1 <> file_path projectId e2 j f2.
Proof.
  intros H1 H2 Hne E. unfold file_path in E.
  apply append_inv_head in E.
  change ("/" +:+ ?x) with (String "/" x) in E. injection E as E.
  change ("-" +:+ ?x) with (String "-" x) in E.
  apply digits_then_inj in E as [En E]; auto using pretty_Z_digits.
  change ("." +:+ ?x) with (String "." x) in E.
  apply digits_then_inj in E as [Ei _]; auto using pretty_nat_digits.
  apply (inj pretty) in En, Ei. destruct Hne; congruence.
Qed.

Lemma file_path_distinct_witness :
  file_path "tower-b" (Samples.accepting 1710498600000) 0 (Samples.bare_photo "a.jpg")
  <> file_path "tower-b" (Samples.accepting 1710498600000) 1 (Samples.bare_photo "a.jpg").
Proof.
  apply (file_path_distinct "tower-b" (Samples.accepting 1710498600000)
           (Samples.accepting 1710498600000) 0 1); [simpl; lia | simpl; lia | left; lia].
Defined.

(** ** The two other lookups *)

(** X20.  [getCurrentWeather] returns a payload exactly when the OpenWeather
    key is set and the request resolves, and the payload is the response's
    data; with the key missing it throws before any request, and a rejected
    request gives [null]. *)
Theorem getCurrentWeather_outcomes
  (cfg : Config) (net : MoreNetwork) (la lo : number) :
  (key_missing (OPENWEATHER_API_KEY cfg) = true ->
   getCurrentWeather cfg (net := net) la lo = Throw (mkError "Missing OpenWeather API key"))
  /\ (key_missing (OPENWEATHER_API_KEY cfg) = false ->
      exists r,
        getCurrentWeather cfg (net := net) la lo = Normal r
        /\ forall p,
             r = Some p
             <-> get_weather_now (MoreNetwork := net) la lo
                   (default "" (OPENWEATHER_API_KEY cfg)) = Normal p).
Proof.
  unfold getCurrentWeather. split; intros ->; [reflexivity |].
  eexists. split; [reflexivity |]. intros p.
  destruct (get_weather_now la lo (default "" (OPENWEATHER_API_KEY cfg))) as [d | e];
    cbn [bind try_catch]; split; intros H; try discriminate H; now injection H as <-.
Qed.

(** X21.  [getCoordinatesFromAddress] returns a pair exactly when the Google
    Maps key is set, the request resolves with status [OK] and at least one
    result, and the first result has a location; the pair is that location,
    its [lng] renamed [lon].  Later results are not looked at, and a first
    result without location gives [null], not an exception. *)
Theorem getCoordinatesFromAddress_some_iff
  (cfg : Config) (net : MoreNetwork) (address : string) (c : Coordinates) :
  getCoordinatesFromAddress cfg (net := net) address = Normal (Some c)
  <-> key_missing (GOOGLE_MAPS_API_KEY cfg) = false
      /\ exists rest,
           get_geocode_address (MoreNetwork := net) address
             (default "" (GOOGLE_MAPS_API_KEY cfg))
           = Normal (mkAddressBody "OK"
                       (mkAddressResult (Some (lat c, lon c)) :: rest)).
Proof.
  unfold getCoordinatesFromAddress.
  destruct (key_missing (GOOGLE_MAPS_API_KEY cfg)).
  - split; [discriminate | intros [H _]; discriminate H].
  - destruct (get_geocode_address address (default "" (GOOGLE_MAPS_API_KEY cfg)))
      as [[st rs] | e]; cbn [bind try_catch address_status address_results]; split.
    + destruct (String.eqb st "OK") eqn:Est; [| discriminate].
      apply String.eqb_eq in Est. subst st.
      destruct rs as [|[[[la ln]|]] rest]; try discriminate. cbn.
      intros H. injection H as <-. split; [reflexivity | now exists rest].
    + intros [_ [rest H]]. injection H as -> ->. destruct c. reflexivity.
    + discriminate.
    + intros [_ [rest H]]. discriminate H.
Qed.

Lemma getCoordinatesFromAddress_null_without_location
  (cfg : Config) (net : MoreNetwork) (address : string) (rest : list AddressResult) :
  key_missing (GOOGLE_MAPS_API_KEY cfg) = false ->
  get_geocode_address (MoreNetwork := net) address (default "" (GOOGLE_MAPS_API_KEY cfg))
  = Normal (mkAddressBody "OK" (mkAddressResult None :: rest)) ->
  getCoordinatesFromAddress cfg (net := net) address = Normal None.
Proof. intros Hk H. unfold getCoordinatesFromAddress. now rewrite Hk, H. Qed.

(** ** Choosing the files *)

Section SelectionFacts.
Context {urls : UrlHost}.

Lemma filter_all (f : Picked -> bool) (l : list Picked) :
  forallb f l = true -> List.filter f l = l.
Proof.
  induction l as [|x l IH]; simpl; [reflexivity |].
  intros H. apply andb_prop in H as [Hx Hl]. now rewrite Hx, IH.
Qed.

Lemma filter_shorter (f : Picked -> bool) (l : list Picked) :
  forallb f l = false -> (length (List.filter f l) < length l)%nat.
Proof.
  induction l as [|x l IH]; simpl; [discriminate |].
  assert (Hle := List.filter_length_le f l).
  destruct (f x); simpl; intros H; [apply IH in H |]; lia.
Qed.

Lemma length_create_urls (n : nat) (fs : list Picked) :
  length (create_urls n fs) = length fs.
Proof. revert n. induction fs as [|f fs IH]; intros n; simpl; [reflexivity | now rewrite IH]. Qed.

(** X22.  [onDrop] takes all the dropped files or none.  When every one has
    an image type, they replace the earlier choice, the error is cleared and
    each gets a fresh preview URL; when one has not, the message about image
    files is shown and the earlier files and previews stay as they were,
    the images of the drop included among the refused. *)
Theorem onDrop_all_or_nothing (acceptedFiles : list Picked) (s : Chosen) :
  if forallb is_image acceptedFiles
  then chosen_files (onDrop acceptedFiles s) = acceptedFiles
       /\ chosen_error (onDrop acceptedFiles s) = None
       /\ previews (onDrop acceptedFiles s) = create_urls (urls_created s) acceptedFiles
       /\ length (previews (onDrop acceptedFiles s)) = length acceptedFiles
  else chosen_files (onDrop acceptedFiles s) = chosen_files s
       /\ chosen_error (onDrop acceptedFiles s) = Some "Only image files are allowed"
       /\ previews (onDrop acceptedFiles s) = previews s
       /\ urls_live (onDrop acceptedFiles s) = urls_live s.
Proof.
  unfold onDrop. destruct (forallb is_image acceptedFiles) eqn:H.
  - rewrite (filter_all _ _ H), Nat.eqb_refl. cbn.
    repeat split. apply length_create_urls.
  - apply filter_shorter in H.
    replace (length (List.filter is_image acceptedFiles) =? length acceptedFiles)%nat
      with false by (symmetry; apply Nat.eqb_neq; lia).
    cbn. auto.
Qed.

Lemma delete_zip {A B} (i : nat) (l : list A) (k : list B) :
  zip (delete i l) (delete i k) = delete i (zip l k).
Proof.
  revert l k. induction i as [|i IH]; intros [|x l] [|y k]; simpl;
    try reflexivity; try (now destruct l); now rewrite IH.
Qed.

Lemma delete_past_end {A} (i : nat) (l : list A) :
  (length l <= i)%nat -> delete i l = l.
Proof.
  revert i. induction l as [|x l IH]; intros [|i] H; simpl in *;
    try reflexivity; [lia |].
  now rewrite IH by lia.
Qed.

(** X23.  [removeFile] keeps each file with its own preview: when the two
    lists have one length, the pairs of file and preview after the removal
    are those before it without the pair at the index, and the lengths still
    agree; an index past the end changes nothing. *)
Theorem removeFile_keeps_pairs (index : nat) (s : Chosen) :
  length (previews s) = length (chosen_files s) ->
  zip (chosen_files (removeFile index s)) (previews (removeFile index s))
  = delete index (zip (chosen_files s) (previews s))
  /\ length (previews (removeFile index s)) = length (chosen_files (removeFile index s))
  /\ ((length (chosen_files s) <= index)%nat -> removeFile index s = s).
Proof.
  intros Hlen. unfold removeFile. cbn [chosen_files previews].
  split; [apply delete_zip |]. split.
  - destruct (decide (index < length (chosen_files s))%nat) as [Hi | Hi].
    + rewrite !length_delete; [lia | |].
      * apply lookup_lt_is_Some. exact Hi.
      * apply lookup_lt_is_Some. lia.
    + rewrite !delete_past_end by lia. exact Hlen.
  - intros Hi. rewrite !delete_past_end by lia.
    rewrite (proj2 (lookup_ge_None (previews s) index)) by lia.
    destruct s; reflexivity.
Qed.

End SelectionFacts.

Section KeptFacts.
Context {urls : UrlHost}.
Hypothesis blob_url_inj : forall m n, blob_url m = blob_url n -> m = n.

Lemma elem_of_create_urls (n : nat) (fs : list Picked) (u : string) :
  u ∈ create_urls n fs <-> exists k, (n <= k < n + length fs)%nat /\ u = blob_url k.
Proof.
  revert n. induction fs as [|f fs IH]; intros n; simpl.
  - split; [intros H; inversion H | intros (k & Hk & _); lia].
  - rewrite elem_of_cons, IH. split.
    + intros [-> | (k & Hk & ->)]; [exists n | exists k]; split; auto; lia.
    + intros (k & Hk & ->). destruct (decide (k = n)) as [-> | Hne]; [now left |].
      right. exists k. split; [lia | reflexivity].
Qed.

Lemma NoDup_create_urls (n : nat) (fs : list Picked) : NoDup (create_urls n fs).
Proof using blob_url_inj.
  revert n. induction fs as [|f fs IH]; intros n; simpl; [constructor |].
  apply NoDup_cons. split; [| apply IH].
  rewrite elem_of_create_urls. intros (k & Hk & E).
  apply blob_url_inj in E. lia.
Qed.

Lemma forallb_delete (f : Picked -> bool) (i : nat) (l : list Picked) :
  forallb f l = true -> forallb f (delete i l) = true.
Proof.
  revert i. induction l as [|x l IH]; intros [|i] H; simpl in *; try reflexivity.
  - now apply andb_prop in H as [_ ?].
  - apply andb_prop in H as [Hx Hl]. now rewrite Hx, IH.
Qed.

Lemma NoDup_delete_not_elem (l : list string) (i : nat) (x : string) :
  NoDup l -> l !! i = Some x -> x ∉ delete i l.
Proof.
  intros Hnd Hi. rewrite delete_take_drop.
  rewrite <- (take_drop_middle l i x Hi) in Hnd.
  apply NoDup_app in Hnd as (_ & Hdis & Hnd).
  apply NoDup_cons in Hnd as [Hx _].
  rewrite elem_of_app. intros [H | H]; [| contradiction].
  apply (Hdis x H). left.
Qed.

Lemma elem_of_revoke (u : option string) (live : list string) (x : string) :
  x ∈ revoke u live <-> x ∈ live /\ u <> Some x.
Proof.
  unfold revoke. destruct u as [url|].
  - rewrite !list_elem_of_In, List.filter_In, negb_true_iff, String.eqb_neq.
    split; intros [H1 H2]; (split; [exact H1 | congruence]).
  - split; [intros H; split; [exact H | discriminate] | now intros [H _]].
Qed.

Lemma onDrop_keeps (fs : list Picked) (s : Chosen) : chosen_ok s -> chosen_ok (onDrop fs s).
Proof using blob_url_inj.
  intros (Hlen & Himg & Hnd & Hlive & Hmade). unfold onDrop.
  destruct (forallb is_image fs) eqn:H.
  - rewrite (filter_all _ _ H), Nat.eqb_refl. cbn [negb].
    repeat split; cbn [chosen_files previews urls_live urls_created].
    + apply length_create_urls.
    + exact H.
    + apply NoDup_create_urls.
    + intros u Hu. apply elem_of_app. now right.
    + intros u Hu. apply elem_of_app in Hu as [Hu | Hu].
      * destruct (Hmade u Hu) as (n & Hn & ->). exists n. split; [lia | reflexivity].
      * apply elem_of_create_urls in Hu as (k & Hk & ->). exists k. split; [lia | reflexivity].
  - apply filter_shorter in H.
    replace (length (List.filter is_image fs) =? length fs)%nat
      with false by (symmetry; apply Nat.eqb_neq; lia).
    cbn [negb]. repeat split; assumption.
Qed.

Lemma removeFile_keeps (i : nat) (s : Chosen) : chosen_ok s -> chosen_ok (removeFile i s).
Proof.
  intros (Hlen & Himg & Hnd & Hlive & Hmade). unfold removeFile.
  repeat split; cbn [chosen_files previews urls_live urls_created].
  - destruct (decide (i < length (chosen_files s))%nat) as [Hi | Hi].
    + rewrite !length_delete; [lia | |]; apply lookup_lt_is_Some; lia.
    + now rewrite !delete_past_end by lia.
  - now apply forallb_delete.
  - eapply sublist_NoDup; [exact Hnd | apply sublist_delete].
  - intros u Hu. apply elem_of_revoke. split.
    + apply Hlive. eapply list_elem_of_delete_inv. exact Hu.
    + intros E. exact (NoDup_delete_not_elem _ _ _ Hnd E Hu).
  - intros u Hu. apply elem_of_revoke in Hu as [Hu _]. now apply Hmade.
Qed.

(** X24.  Whatever the user drops and removes, starting from the mounted
    page and in a browser whose object URLs are all different, the page
    keeps its files and previews in step: as many previews as files, every
    file of an image type, no preview twice, and every preview a URL that
    was created and is not revoked. *)
Theorem chosen_ok_run (actions : list Action) :
  chosen_ok (run actions nothing_chosen).
Proof using blob_url_inj.
  assert (H0 : chosen_ok nothing_chosen).
  { repeat split; try constructor; intros u Hu; inversion Hu. }
  revert H0. unfold run. generalize nothing_chosen.
  induction actions as [|a actions IH]; intros s Hs; [exact Hs |].
  apply IH. destruct a; [now apply onDrop_keeps | now apply removeFile_keeps].
Qed.

End KeptFacts.

Lemma numbered_urls_inj (m n : nat) :
  blob_url (UrlHost := OtherSamples.numbered_urls) m
  = blob_url (UrlHost := OtherSamples.numbered_urls) n -> m = n.
Proof.
  cbn. intros H. apply append_inv_head in H. now apply (inj pretty) in H.
Qed.

Lemma chosen_ok_run_witness :
  chosen_ok (urls := OtherSamples.numbered_urls)
    (run (urls := OtherSamples.numbered_urls)
         [Drop [OtherSamples.jpeg "a.jpg"; OtherSamples.jpeg "b.jpg"]; Remove 0;
          Drop [OtherSamples.pdf "plan.pdf"]]
         nothing_chosen).
Proof.
  exact (chosen_ok_run (urls := OtherSamples.numbered_urls) numbered_urls_inj
           [Drop [OtherSamples.jpeg "a.jpg"; OtherSamples.jpeg "b.jpg"]; Remove 0;
            Drop [OtherSamples.pdf "plan.pdf"]]).
Defined.

Lemma removeFile_keeps_pairs_witness :
  zip (chosen_files (removeFile 0 OtherSamples.two_chosen))
      (previews (removeFile 0 OtherSamples.two_chosen))
  = delete 0 (zip (chosen_files OtherSamples.two_chosen) (previews OtherSamples.two_chosen))
  /\ length (previews (removeFile 0 OtherSamples.two_chosen))
     = length (chosen_files (removeFile 0 OtherSamples.two_chosen))
  /\ ((length (chosen_files OtherSamples.two_chosen) <= 0)%nat ->
      removeFile 0 OtherSamples.two_chosen = OtherSamples.two_chosen).
Proof. apply (removeFile_keeps_pairs 0 OtherSamples.two_chosen). reflexivity. Defined.

Lemma getCurrentWeather_outcomes_witness :
  exists r,
    getCurrentWeather Samples.keys (net := OtherSamples.geocoder) 25.125 121.5 = Normal r
    /\ forall p,
         r = Some p
         <-> get_weather_now (MoreNetwork := OtherSamples.geocoder) 25.125 121.5
               (default "" (OPENWEATHER_API_KEY Samples.keys)) = Normal p.
Proof.
  apply (proj2 (getCurrentWeather_outcomes Samples.keys OtherSamples.geocoder 25.125 121.5)).
  reflexivity.
Defined.

(** *** [analyzeImage] *)

Lemma append_eq_self (p t : string) : p +:+ t = p -> t = "".
Proof. intros H. apply (append_inv_head p). now rewrite append_nil_r. Qed.

Lemma append_eq_nil (a b : string) : a +:+ b = "" -> a = "" /\ b = "".
Proof.
  destruct a as [|x a]; [rewrite append_nil_l; now intros -> |].
  rewrite append_cons. discriminate.
Qed.

Lemma add_section_tail (heading : string) (x : option string) (p : string) :
  exists t, OpenAI.add_section heading x p = p +:+ t /\ (t = "" <-> OpenAI.given x = false).
Proof.
  unfold OpenAI.add_section. destruct (OpenAI.given x).
  - eexists. split; [reflexivity |]. unfold OpenAI.newline.
    rewrite append_cons. split; discriminate.
  - exists "". now rewrite append_nil_r.
Qed.

(** X25.  [analyzeImage] resolves exactly when the client resolves with at
    least one choice, and then with the content of the first choice, which
    may be [null]; the request names the model [gpt-4-vision-preview], has
    one user message with the text first and the image URL second, and
    asks for at most 1000 tokens.  An error of the client reaches the
    caller as it is. *)
Theorem analyzeImage_outcomes
  (client : OpenAI.Client) (imageUrl prompt : string)
  (specifications drawings contractItems : option string) :
  (forall r,
     OpenAI.analyzeImage (client := client) imageUrl prompt specifications drawings contractItems
     = Normal r
     <-> exists first rest,
           OpenAI.create
             (OpenAI.mkChatRequest "gpt-4-vision-preview"
                [OpenAI.mkMessage "user"
                   [OpenAI.TextPart
                      (OpenAI.full_prompt prompt specifications drawings contractItems);
                    OpenAI.ImageUrlPart imageUrl]]
                1000)
           = Normal (OpenAI.mkChatResponse (first :: rest))
           /\ r = OpenAI.content first)
  /\ (forall e,
        OpenAI.create
          (OpenAI.mkChatRequest "gpt-4-vision-preview"
             [OpenAI.mkMessage "user"
                [OpenAI.TextPart
                   (OpenAI.full_prompt prompt specifications drawings contractItems);
                 OpenAI.ImageUrlPart imageUrl]]
             1000)
        = Throw e ->
        OpenAI.analyzeImage (client := client) imageUrl prompt specifications drawings
          contractItems
        = Throw e).
Proof.
  unfold OpenAI.analyzeImage. cbv zeta.
  destruct (OpenAI.create _) as [[[|c cs]] | e0]; cbn; split.
  - intros r. split; [discriminate | intros (f & rest & H & _); discriminate H].
  - discriminate.
  - intros r. split.
    + intros H. injection H as <-. now exists c, cs.
    + intros (f & rest & H & ->). now injection H as <- _.
  - discriminate.
  - intros r. split; [discriminate | intros (f & rest & H & _); discriminate H].
  - now intros e [= ->].
Qed.

(** X26.  The text [analyzeImage] sends is the caller's prompt unchanged
    exactly when none of the specifications, the drawings and the contract
    items is given, an empty string counting as not given; otherwise the
    prompt is extended, never replaced. *)
Theorem full_prompt_is_prompt_iff
  (prompt : string) (specifications drawings contractItems : option string) :
  (OpenAI.full_prompt prompt specifications drawings contractItems = prompt
   <-> OpenAI.given specifications = false
       /\ OpenAI.given drawings = false
       /\ OpenAI.given contractItems = false)
  /\ String.prefix prompt (OpenAI.full_prompt prompt specifications drawings contractItems)
     = true.
Proof.
  unfold OpenAI.full_prompt.
  destruct (add_section_tail "Specifications:" specifications prompt) as (t1 & -> & H1).
  destruct (add_section_tail "Drawings:" drawings (prompt +:+ t1)) as (t2 & -> & H2).
  destruct (add_section_tail "Contract Items (BOQ):" contractItems ((prompt +:+ t1) +:+ t2))
    as (t3 & -> & H3).
  rewrite !append_assoc. split.
  - rewrite <- H1, <- H2, <- H3. split.
    + intros H. apply append_eq_self in H.
      apply append_eq_nil in H as [-> H]. apply append_eq_nil in H as [-> ->]. auto.
    + intros (-> & -> & ->). now rewrite !append_nil_r.
  - generalize (t1 +:+ t2 +:+ t3). intros t.
    induction prompt as [|x p IH]; [now destruct t |].
    rewrite append_cons. cbn. rewrite IH. now destruct (Ascii.ascii_dec x x).
Qed.

(** *** [fetchProjects] *)

(** X27.  When either query reports an error, the page shows the fixed text
    [Failed to load projects. Please try again later.] whatever the error
    says, keeps the projects it had and stops loading. *)
Theorem fetchProjects_error_hides_cause
  (db : Projects.Database) (user_id : string) (s : Projects.Board) (e : JsError) :
  Projects.query_error (Projects.select_memberships user_id) = Some e
  \/ (Projects.query_error (Projects.select_memberships user_id) = None
      /\ exists p ps,
           Projects.data (Projects.select_memberships user_id) = Some (p :: ps)
           /\ Projects.query_error (Projects.select_projects (p :: ps)) = Some e) ->
  Projects.fetchProjects (db := db) (Some user_id) s
  = Projects.mkBoard (Projects.projects s) false
      (Some "Failed to load projects. Please try again later.").
Proof.
  unfold Projects.fetchProjects.
  intros [-> | (-> & p & ps & -> & ->)]; reflexivity.
Qed.

(** X28.  When no query reports an error, the page shows no project if the
    user has no membership, without asking for projects, and else the rows
    found for the user's project ids, none if the rows are [null]; it stops
    loading and leaves the error text as it was, so a text shown by an
    earlier failure stays. *)
Theorem fetchProjects_success_keeps_error
  (db : Projects.Database) (user_id : string) (s : Projects.Board) :
  Projects.query_error (Projects.select_memberships user_id) = None ->
  (forall ids,
     Projects.data (Projects.select_memberships user_id) = Some ids ->
     Projects.query_error (Projects.select_projects ids) = None) ->
  Projects.fetchProjects (db := db) (Some user_id) s
  = Projects.mkBoard
      (match Projects.data (Projects.select_memberships user_id) with
       | Some (p :: ps) => default [] (Projects.data (Projects.select_projects (p :: ps)))
       | _ => []
       end)
      false (Projects.board_error s).
Proof.
  unfold Projects.fetchProjects. intros -> H.
  destruct (Projects.data (Projects.select_memberships user_id)) as [[|p ps]|]; try reflexivity.
  now rewrite (H (p :: ps) eq_refl).
Qed.

Lemma fetchProjects_error_hides_cause_witness :
  Projects.fetchProjects (db := OtherSamples.failing_database) (Some "u-1")
    (Projects.mkBoard [OtherSamples.tower] true None)
  = Projects.mkBoard [OtherSamples.tower] false
      (Some "Failed to load projects. Please try again later.").
Proof.
  apply (fetchProjects_error_hides_cause OtherSamples.failing_database "u-1"
           (Projects.mkBoard [OtherSamples.tower] true None)
           (mkError "permission denied for table projects")).
  right. split; [reflexivity |]. exists "p-1", []. split; reflexivity.
Defined.

Lemma fetchProjects_success_keeps_error_witness :
  Projects.fetchProjects (db := OtherSamples.working_database) (Some "u-1")
    OtherSamples.stale_board
  = Projects.mkBoard [OtherSamples.tower] false
      (Some "Failed to load projects. Please try again later.").
Proof.
  apply (fetchProjects_success_keeps_error OtherSamples.working_database "u-1"
           OtherSamples.stale_board).
  - reflexivity.
  - intros ids _. reflexivity.
Defined.
